(** * create_ppt.py: the universe-review report script, embedded in Rocq

    The script reads one snapshot file, extracts three metadata fields from
    its preamble, loads the tabular block with pandas, coerces the [MktCap]
    column, and fills four slides (title, summary statistics, sector
    breakdown, top-15 table) before saving the presentation.

    Conventions of the embedding.
    - A Python [str] is a [string]; each character stands for a code point
      below 256.
    - A float64 is a [float64]: NaN, an infinity, the negative zero, or a
      finite value given by the exact rational it denotes.  Arithmetic
      rounds to the nearest float64, ties to even; parsing a decimal gives
      the float64 nearest to it.
    - [to_numeric] makes the column an int64 Series when every cell is the
      text of an integer that fits int64, and a float64 Series otherwise.
      The sum of an int64 Series is an int64 sum, which wraps around; mean
      and median work on the values converted to float64, and so does the
      formatting of a number.  A value [Fin q] of an int64 Series is the
      integer itself.  Integers beyond int64 are left to the float64 case.
    - A float64 sum is taken from the first value on, in row order.
    - [pd.read_csv] is not re-implemented: its result for the file (a frame
      of object cells, or the exception it raised) is an input of the
      script, next to the list [lines].  A cell is the text of the field or
      NaN where the reader found a missing value; a column that the reader
      inferred as numeric is represented by the text of its fields.  The
      reader makes the column names distinct and the rows as long as the
      header.
    - pandas functions are given by their effect on these values:
      [skipna] reductions, [nunique] and [value_counts] with [dropna=True],
      [nlargest] with [keep='first'].  Where pandas sorts, rows with equal
      keys keep their input order.
    - The presentation is a list of slides, a slide a list of shapes; a
      text box records the string assigned to its [text] attribute.
      Assigning [None] raises [AttributeError] in the setter; what
      python-pptx does with a string is outside the model. *)

From Stdlib Require Import List String Ascii Bool Arith ZArith QArith Lia.
From Stdlib Require Import Permutation Sorted DecimalString Qreduction.
From Stdlib Require Import DecimalN DecimalPos.
Import ListNotations.

Local Open Scope string_scope.
Local Open Scope list_scope.
Local Open Scope nat_scope.

(** ** Python string primitives *)

Module Py.

(** [str.isspace] on one character, for code points below 256:
    TAB..CR, FS..US, SPACE, NEL and NBSP. *)
Definition is_space (c : ascii) : bool :=
  let n := nat_of_ascii c in
  ((9 <=? n) && (n <=? 13)) || ((28 <=? n) && (n <=? 32))
  || (n =? 133) || (n =? 160).

Fixpoint lstrip (s : string) : string :=
  match s with
  | EmptyString => EmptyString
  | String c s' => if is_space c then lstrip s' else s
  end.

Fixpoint rstrip (s : string) : string :=
  match s with
  | EmptyString => EmptyString
  | String c s' =>
      match rstrip s' with
      | EmptyString => if is_space c then EmptyString else String c EmptyString
      | r => String c r
      end
  end.

(** [s.strip()] *)
Definition strip (s : string) : string := rstrip (lstrip s).

(** [s.split(sep)] for a one-character separator: one more piece than
    there are separators, empty pieces kept. *)
Fixpoint split (sep : ascii) (s : string) : list string :=
  match s with
  | EmptyString => [EmptyString]
  | String c s' =>
      if Ascii.eqb c sep then EmptyString :: split sep s'
      else match split sep s' with
           | h :: t => String c h :: t
           | [] => [String c EmptyString]
           end
  end.

(** Truth value of a [str]: non-empty. *)
Definition truthy (s : string) : bool :=
  match s with EmptyString => false | String _ _ => true end.

(** [s.startswith(p)] *)
Definition startswith (s p : string) : bool := String.prefix p s.

(** [s.replace(old, new)] for a one-character [old]. *)
Fixpoint replace (old : ascii) (new : string) (s : string) : string :=
  match s with
  | EmptyString => EmptyString
  | String c s' =>
      if Ascii.eqb c old then new ++ replace old new s'
      else String c (replace old new s')
  end.

(** [s[:n]] *)
Definition slice_to (n : nat) (s : string) : string := String.substring 0 n s.

(** [sep.join(parts)] *)
Definition join (sep : string) (parts : list string) : string :=
  String.concat sep parts.

End Py.

(** ** Metadata preamble (lines 19-30) *)

(** The [for p in parts: if p: return p] loop followed by [return None]. *)
Fixpoint first_truthy (parts : list string) : option string :=
  match parts with
  | [] => None
  | p :: ps => if Py.truthy p then Some p else first_truthy ps
  end.

Definition clean_metadata_line (line : string) : option string :=
  let parts := map Py.strip (Py.split "," line) in
  first_truthy parts.

Record Metadata := {
  title : option string;
  date : option string;
  notes : option string
}.

(** [clean_metadata_line(lines[i]) if len(lines) > i else None] *)
Definition metadata_field (lines : list string) (i : nat) : option string :=
  if i <? List.length lines then clean_metadata_line (nth i lines EmptyString)
  else None.

Definition metadata (lines : list string) : Metadata :=
  {| title := metadata_field lines 0;
     date := metadata_field lines 1;
     notes := metadata_field lines 2 |}.


(** ** float64 values and their arithmetic

    A finite float64 is given by the exact rational it denotes; the zero
    with the sign bit set is a value of its own.  Every operation rounds
    its exact result to the nearest float64, ties to even, as IEEE 754
    binary64 arithmetic does. *)

Inductive float64 :=
  | NaN
  | Inf (neg : bool)
  | Fin (q : Q)
  | NegZero.

Module F.

Definition isna (x : float64) : bool :=
  match x with NaN => true | _ => false end.

Definition notna (x : float64) : bool := negb (isna x).

Definition zero : float64 := Fin 0.

Definition signed_zero (neg : bool) : float64 :=
  if neg then NegZero else Fin 0.

(** The sign bit. *)
Definition signbit (x : float64) : bool :=
  match x with
  | NaN => false
  | Inf b => b
  | Fin q => (Qnum q <? 0)%Z
  | NegZero => true
  end.

Definition is_zero (x : float64) : bool :=
  match x with
  | Fin q => (Qnum q =? 0)%Z
  | NegZero => true
  | _ => false
  end.

Definition is_inf (x : float64) : bool :=
  match x with Inf _ => true | _ => false end.

(** Round-half-even of the non-negative fraction [a / b]. *)
Definition round_half_even (a : Z) (b : positive) : Z :=
  let fl := (a / Zpos b)%Z in
  let r := (a mod Zpos b)%Z in
  match (2 * r ?= Zpos b)%Z with
  | Lt => fl
  | Gt => (fl + 1)%Z
  | Eq => if Z.even fl then fl else (fl + 1)%Z
  end.

(** The binary exponent of [a / d]: the [e] with [2^e <= a / d < 2^(e+1)],
    for positive [a] and [d]. *)
Definition ilog2 (a d : Z) : Z :=
  let e := (Z.log2 a - Z.log2 d)%Z in
  if (a * 2 ^ Z.max 0 (- e) <? d * 2 ^ Z.max 0 e)%Z then (e - 1)%Z else e.

(** The float64 nearest to a rational, ties to even: 53 significant bits,
    no bit below [2^-1074], an infinity from [2^1024] on. *)
Definition round (q : Q) : float64 :=
  let n := Qnum q in
  let a := Z.abs n in
  let d := Zpos (Qden q) in
  let s := Z.min (52 - ilog2 a d) 1074 in
  let m := round_half_even (a * 2 ^ Z.max 0 s)
             (Z.to_pos (d * 2 ^ Z.max 0 (- s))) in
  if (n =? 0)%Z then Fin 0
  else if (m =? 0)%Z then signed_zero (n <? 0)%Z
  else if (2 ^ 1024 * 2 ^ Z.max 0 s <=? m * 2 ^ Z.max 0 (- s))%Z
       then Inf (n <? 0)%Z
  else Fin (Qred (Qmake ((if (n <? 0)%Z then -1 else 1)
                         * m * 2 ^ Z.max 0 (- s))
                        (Z.to_pos (2 ^ Z.max 0 s)))).

(** An integer converted to float64. *)
Definition of_Z (z : Z) : float64 := round (inject_Z z).

(** [float(x)] for a number that is an integer or a float64: the float64
    nearest to it, which for a float64 is the number itself. *)
Definition to_float (x : float64) : float64 :=
  match x with
  | Fin q => round q
  | _ => x
  end.

(** IEEE addition. *)
Definition add (x y : float64) : float64 :=
  match x, y with
  | NaN, _ => NaN
  | _, NaN => NaN
  | Inf a, Inf b => if Bool.eqb a b then Inf a else NaN
  | Inf a, _ => Inf a
  | _, Inf b => Inf b
  | NegZero, _ => y
  | _, NegZero => x
  | Fin p, Fin q => round (p + q)
  end.

(** IEEE multiplication. *)
Definition mul (x y : float64) : float64 :=
  let s := xorb (signbit x) (signbit y) in
  match x, y with
  | NaN, _ => NaN
  | _, NaN => NaN
  | Fin p, Fin q =>
      if is_zero x || is_zero y then signed_zero s else round (p * q)
  | _, _ =>
      if is_zero x || is_zero y
      then (if is_inf x || is_inf y then NaN else signed_zero s)
      else Inf s
  end.

(** IEEE division. *)
Definition div (x y : float64) : float64 :=
  let s := xorb (signbit x) (signbit y) in
  match x, y with
  | NaN, _ => NaN
  | _, NaN => NaN
  | Inf _, Inf _ => NaN
  | Inf _, _ => Inf s
  | _, Inf _ => signed_zero s
  | _, _ =>
      if is_zero y then (if is_zero x then NaN else Inf s)
      else if is_zero x then signed_zero s
      else match x, y with
           | Fin p, Fin q => round (p / q)
           | _, _ => NaN
           end
  end.

(** Division by a positive integer. *)
Definition div_pos (x : float64) (n : positive) : float64 :=
  div x (of_Z (Zpos n)).

(** The order numpy sorts by: -inf, the finite values, +inf, then NaN;
    the two zeros are the same value. *)
Definition lt (x y : float64) : bool :=
  match x, y with
  | NaN, _ => false
  | _, NaN => true
  | Inf true, Inf true => false
  | Inf true, _ => true
  | _, Inf true => false
  | Inf false, _ => false
  | _, Inf false => true
  | Fin p, Fin q => match (p ?= q)%Q with Lt => true | _ => false end
  | Fin p, NegZero => match (p ?= 0)%Q with Lt => true | _ => false end
  | NegZero, Fin q => match (0 ?= q)%Q with Lt => true | _ => false end
  | NegZero, NegZero => false
  end.

(** Same value (not the same representation of it). *)
Definition same (x y : float64) : bool := negb (lt x y) && negb (lt y x).

End F.

(** ** Python number formatting: [{n:,}], [{x:,.2f}], [{x:.1f}]

    The digits shown are those of the exact value, rounded half-even as
    Python rounds the value of a float. *)

Module Fmt.

Definition digits_of_N (n : N) : string := NilZero.string_of_uint (N.to_uint n).

(** Commas between groups of three digits, on the reversed digit list. *)
Fixpoint group_rev (l : list ascii) : list ascii :=
  match l with
  | a :: b :: c :: ((_ :: _) as rest) =>
      a :: b :: c :: ","%char :: group_rev rest
  | _ => l
  end.

Definition group (s : string) : string :=
  string_of_list_ascii (rev (group_rev (rev (list_ascii_of_string s)))).

Fixpoint zeros (n : nat) : string :=
  match n with O => EmptyString | S k => String "0" (zeros k) end.

Definition pad_left (width : nat) (s : string) : string :=
  zeros (width - String.length s) ++ s.

(** [{n:,}] for a non-negative integer. *)
Definition int_commas (n : nat) : string := group (digits_of_N (N.of_nat n)).

(** The digits of [{x:.<d>f}] for a finite value, the sign given apart. *)
Definition fixed_digits (grouping : bool) (d : nat) (neg : bool) (q : Q)
  : string :=
  let scale := (10 ^ Z.of_nat d)%Z in
  let r := F.round_half_even (Z.abs (Qnum q) * scale) (Qden q) in
  let ip := digits_of_N (Z.to_N (r / scale)) in
  let fp := pad_left d (digits_of_N (Z.to_N (r mod scale))) in
  (if neg then "-" else "")
  ++ (if grouping then group ip else ip)
  ++ (if d =? 0 then "" else "." ++ fp).

(** [{x:.<d>f}], with the [,] option when [grouping] is set.  Python
    formats the float64 value of the number, also when it is an integer. *)
Definition fixed (grouping : bool) (d : nat) (x : float64) : string :=
  match F.to_float x with
  | NaN => "nan"
  | Inf false => "inf"
  | Inf true => "-inf"
  | Fin q => fixed_digits grouping d (Qnum q <? 0)%Z q
  | NegZero => fixed_digits grouping d true 0
  end.

End Fmt.

(** ** pandas: scalars, Series and frames *)

(** An object cell of the frame that [read_csv] returned. *)
Inductive cell :=
  | CNaN
  | CStr (s : string).

Definition cell_eqb (a b : cell) : bool :=
  match a, b with
  | CNaN, CNaN => true
  | CStr s, CStr t => String.eqb s t
  | _, _ => false
  end.

Definition cell_eq_dec (a b : cell) : {a = b} + {a <> b}.
Proof. decide equality. apply string_dec. Defined.

Definition cell_isna (c : cell) : bool :=
  match c with CNaN => true | CStr _ => false end.

(** Exceptions the script can die of.  [AttributeError] is what the
    text setter of a text frame raises when it is handed [None]. *)
Inductive exn :=
  | KeyError (missing : list string)
  | ReaderError (message : string)
  | AttributeError.

Definition result (A : Type) : Type := (exn + A)%type.

Record DataFrame := {
  columns : list string;
  rows : list (list cell)
}.

(** *** Numeric parsing behind [to_numeric] (its C routine) *)

Module Parse.

Definition is_digit (c : ascii) : bool :=
  let n := nat_of_ascii c in (48 <=? n) && (n <=? 57).

(** C [isspace] in the parser: SPACE and TAB..CR. *)
Definition is_cspace (c : ascii) : bool :=
  let n := nat_of_ascii c in (n =? 32) || ((9 <=? n) && (n <=? 13)).

Definition lower (c : ascii) : ascii :=
  let n := nat_of_ascii c in
  if (65 <=? n) && (n <=? 90) then ascii_of_nat (n + 32) else c.

(** The bytes up to the first NUL: what the C routine sees. *)
Fixpoint c_string (l : list ascii) : list ascii :=
  match l with
  | [] => []
  | c :: l' => if Ascii.eqb c zero then [] else c :: c_string l'
  end.

Fixpoint skip_ws (l : list ascii) : list ascii :=
  match l with
  | c :: l' => if is_cspace c then skip_ws l' else l
  | [] => []
  end.

Definition take_sign (l : list ascii) : bool * list ascii :=
  match l with
  | c :: l' =>
      if Ascii.eqb c "-" then (true, l')
      else if Ascii.eqb c "+" then (false, l')
      else (false, l)
  | [] => (false, [])
  end.

(** Consume a run of digits: accumulated value, number of digits, rest. *)
Fixpoint take_digits (acc : Z) (n : nat) (l : list ascii)
  : Z * nat * list ascii :=
  match l with
  | c :: l' =>
      if is_digit c
      then take_digits (acc * 10 + Z.of_nat (nat_of_ascii c - 48))%Z (S n) l'
      else (acc, n, l)
  | [] => (acc, n, [])
  end.

(** The float64 nearest to [mant * 10 ^ expo], negated when [neg]. *)
Definition decimal (neg : bool) (mant expo : Z) : float64 :=
  let m := if neg then (- mant)%Z else mant in
  if (mant =? 0)%Z then F.signed_zero neg
  else match expo with
       | Zneg p => F.round (Qmake m (10 ^ p))
       | _ => F.round (inject_Z (m * 10 ^ expo))
       end.

(** Optional exponent part; when no digit follows the [e], nothing is
    consumed. *)
Definition take_exponent (l : list ascii) : option Z * list ascii :=
  match l with
  | c :: l' =>
      if Ascii.eqb (lower c) "e" then
        let (eneg, l1) := take_sign l' in
        match take_digits 0 0 l1 with
        | (_, O, _) => (None, l)
        | (ev, S _, l2) => (Some (if eneg then - ev else ev)%Z, l2)
        end
      else (None, l)
  | [] => (None, [])
  end.

(** What the number grammar read: the sign, the digits as an integer, the
    power of ten, and whether the text is that of an integer (no fraction
    and no exponent). *)
Record Scanned := {
  negative : bool;
  digits : Z;
  exponent : Z;
  maybe_int : bool
}.

(** The number grammar: blanks, sign, digits, optional fraction, at least
    one digit, optional exponent, blanks, end. *)
Definition scan (l : list ascii) : option Scanned :=
  let (neg, l1) := take_sign (skip_ws l) in
  let '(m1, n1, l2) := take_digits 0 0 l1 in
  let '(m2, n2, l3, dot) :=
    match l2 with
    | c :: r =>
        if Ascii.eqb c "."
        then let '(m, n, l') := take_digits m1 0 r in (m, n, l', true)
        else (m1, O, l2, false)
    | [] => (m1, O, l2, false)
    end in
  if n1 + n2 =? 0 then None
  else
    let (e, l4) := take_exponent l3 in
    match skip_ws l4 with
    | [] =>
        Some {| negative := neg;
                digits := m2;
                exponent :=
                  (match e with Some ev => ev | None => 0 end
                   - Z.of_nat n2)%Z;
                maybe_int :=
                  negb dot && match e with Some _ => false | None => true end |}
    | _ :: _ => None
    end.

Definition parse_decimal (l : list ascii) : option float64 :=
  match scan l with
  | Some sc => Some (decimal (negative sc) (digits sc) (exponent sc))
  | None => None
  end.

(** The integer of a text that is one. *)
Definition parse_int (l : list ascii) : option Z :=
  match scan l with
  | Some sc =>
      if maybe_int sc
      then Some (if negative sc then - digits sc else digits sc)%Z
      else None
  | None => None
  end.

(** The spellings of infinity accepted when the grammar fails. *)
Definition parse_inf (l : list ascii) : option float64 :=
  let w := string_of_list_ascii (map lower l) in
  if String.eqb w "inf" || String.eqb w "+inf"
     || String.eqb w "infinity" || String.eqb w "+infinity"
  then Some (Inf false)
  else if String.eqb w "-inf" || String.eqb w "-infinity" then Some (Inf true)
  else None.

Definition parse_float (s : string) : option float64 :=
  let l := c_string (list_ascii_of_string s) in
  match parse_decimal l with
  | Some x => Some x
  | None => parse_inf l
  end.

(** The integer of a text that is one and fits int64. *)
Definition parse_int64 (s : string) : option Z :=
  match parse_int (c_string (list_ascii_of_string s)) with
  | Some z =>
      if ((- 2 ^ 63 <=? z) && (z <? 2 ^ 63))%Z then Some z else None
  | None => None
  end.

End Parse.

(** *** A stable insertion sort

    [before x y] says that [x] has to come strictly ahead of [y]; elements
    that neither precede the other keep their input order. *)

Section StableSort.
Context {A : Type} (before : A -> A -> bool).

Fixpoint insert (x : A) (l : list A) : list A :=
  match l with
  | [] => [x]
  | y :: l' => if before y x then y :: insert x l' else x :: l
  end.

Definition stable_sort (l : list A) : list A := fold_right insert [] l.
End StableSort.

Module Pd.

(** [pd.to_numeric(_, errors='coerce')] on one string. *)
Definition to_numeric_coerce (s : string) : float64 :=
  match Parse.parse_float s with
  | Some x => x
  | None => NaN
  end.

(** [.astype(str)] on one object cell. *)
Definition astype_str (c : cell) : string :=
  match c with
  | CNaN => "nan"
  | CStr s => s
  end.

(** *** Frames *)

Definition len (df : DataFrame) : nat := List.length (rows df).

Fixpoint index_of (name : string) (cols : list string) : option nat :=
  match cols with
  | [] => None
  | c :: cs =>
      if String.eqb c name then Some O else option_map S (index_of name cs)
  end.

(** [df[name]]: the column of that name as a Series, or [KeyError] when no
    column has the name. *)
Definition getitem (df : DataFrame) (name : string) : result (list cell) :=
  match index_of name (columns df) with
  | Some i => inr (map (fun r => nth i r CNaN) (rows df))
  | None => inl (KeyError [name])
  end.

(** Selection by a boolean mask. *)
Fixpoint select {A : Type} (mask : list bool) (l : list A) : list A :=
  match mask, l with
  | m :: ms, x :: xs => if m then x :: select ms xs else select ms xs
  | _, _ => []
  end.

(** [df.loc[:, mask]] *)
Definition loc_columns (mask : list bool) (df : DataFrame) : DataFrame :=
  {| columns := select mask (columns df);
     rows := map (select mask) (rows df) |}.

(** *** Float Series: [sum], [mean], [median] with the default
    [skipna=True] *)

Definition fillna0 (x : float64) : float64 := if F.isna x then F.zero else x.

(** NaN is replaced by 0 and the values are added up, from the first
    one on; the sum of nothing is 0. *)
Definition sum (xs : list float64) : float64 :=
  match map fillna0 xs with
  | [] => F.zero
  | x :: rest => fold_left F.add rest x
  end.

(** *** int64 Series

    [to_numeric] returns an int64 Series when every string is the text of
    an integer that fits int64.  (Integers beyond int64 are left to the
    float64 case here; pandas has further cases for them.) *)
Fixpoint to_int64 (col : list string) : option (list Z) :=
  match col with
  | [] => Some []
  | s :: rest =>
      match Parse.parse_int64 s, to_int64 rest with
      | Some z, Some zs => Some (z :: zs)
      | _, _ => None
      end
  end.

(** Two's complement wrap-around of int64 arithmetic. *)
Definition wrap64 (z : Z) : Z := ((z + 2 ^ 63) mod 2 ^ 64 - 2 ^ 63)%Z.

(** [sum] of an int64 Series: int64 arithmetic, which wraps. *)
Definition sum_int64 (zs : list Z) : Z := wrap64 (fold_left Z.add zs 0%Z).

(** The number of non-null values. *)
Definition count (xs : list float64) : nat := List.length (filter F.notna xs).

(** The sum over the number of non-null values, NaN when there is none. *)
Definition mean (xs : list float64) : float64 :=
  match count xs with
  | O => NaN
  | S k => F.div_pos (sum xs) (Pos.of_succ_nat k)
  end.

(** Middle of the sorted values, the two middle ones averaged when their
    number is even. *)
Definition median_sorted (v : list float64) : float64 :=
  match List.length v with
  | O => NaN
  | n =>
      if Nat.odd n then nth (n / 2) v NaN
      else F.div_pos (F.add (nth (n / 2 - 1) v NaN) (nth (n / 2) v NaN)) 2
  end.

(** The median of the non-null values, NaN when there is none. *)
Definition median (xs : list float64) : float64 :=
  median_sorted (stable_sort F.lt (filter F.notna xs)).

(** *** Object Series: [unique], [nunique], [value_counts] *)

(** [unique()]: the distinct cells in first-seen order, NaN being one
    value. *)
Definition unique (col : list cell) : list cell :=
  fold_left
    (fun seen c => if existsb (cell_eqb c) seen then seen else seen ++ [c])
    col [].

(** [nunique()]: with the default [dropna=True], the number of distinct
    cells once NaN is taken out. *)
Definition nunique (col : list cell) : nat :=
  List.length (filter (fun c => negb (cell_isna c)) (unique col)).

(** One more occurrence of [k] in a table kept in first-seen order. *)
Fixpoint bump (k : string) (tbl : list (string * nat)) : list (string * nat) :=
  match tbl with
  | [] => [(k, 1)]
  | (k', n) :: t =>
      if String.eqb k' k then (k', S n) :: t else (k', n) :: bump k t
  end.

(** The occurrence table of the non-null cells ([dropna=True]). *)
Definition value_count (col : list cell) : list (string * nat) :=
  fold_left
    (fun tbl c => match c with CNaN => tbl | CStr s => bump s tbl end)
    col [].

(** [value_counts()]: the table sorted by descending count ([sort=True],
    [ascending=False]); entries of equal count stay in table order. *)
Definition value_counts (col : list cell) : list (string * nat) :=
  stable_sort (fun a b => snd b <? snd a) (value_count col).

(** *** [nlargest(n, key)], [keep='first']

    pandas selects among the rows with a non-null key, orders them by
    descending key (rows of equal key in input order), appends the rows
    with a null key in input order and returns the first [n] rows of the
    whole. *)
Definition nlargest {R : Type} (n : nat) (key : R -> float64) (l : list R)
  : list R :=
  firstn n
    (stable_sort (fun a b => F.lt (key b) (key a))
       (filter (fun r => F.notna (key r)) l)
     ++ filter (fun r => F.isna (key r)) l).

End Pd.

(** Line 37, cell by cell, as float64:
    [to_numeric(astype(str).str.replace(',', ''), errors='coerce')]. *)
Definition coerce_mktcap (c : cell) : float64 :=
  Pd.to_numeric_coerce (Py.replace "," "" (Pd.astype_str c)).

(** The integers of the column when line 37 makes it an int64 Series. *)
Definition mktcap_int64 (raw : list cell) : option (list Z) :=
  Pd.to_int64 (map (fun c => Py.replace "," "" (Pd.astype_str c)) raw).

(** Line 37 on the frame: the values of the coerced column (the integers
    themselves when the Series is int64, float64 values otherwise), or
    [KeyError] when the frame has no [MktCap] column. *)
Definition mktcap_column (df : DataFrame) : result (list float64) :=
  match Pd.getitem df "MktCap" with
  | inl e => inl e
  | inr raw =>
      inr match mktcap_int64 raw with
          | Some zs => map (fun z => Fin (inject_Z z)) zs
          | None => map coerce_mktcap raw
          end
  end.

(** Line 34: [df.loc[:, ~df.columns.str.startswith("Unnamed")]] *)
Definition drop_unnamed (df : DataFrame) : DataFrame :=
  let mask := map (fun c => Py.startswith c "Unnamed") (columns df) in
  Pd.loc_columns (map negb mask) df.

(** ** The presentation under construction *)

Inductive shape :=
  | TextBox (text : option string)
  | Table (cells : list (list string)).

Definition slide : Type := list shape.
Definition Presentation : Type := list slide.

(** The script as a computation over the presentation that may raise: the
    presentation built so far survives an exception. *)
Definition M (A : Type) : Type := Presentation -> Presentation * result A.

Definition ret {A : Type} (a : A) : M A := fun prs => (prs, inr a).

Definition bind {A B : Type} (m : M A) (k : A -> M B) : M B :=
  fun prs =>
    match m prs with
    | (prs', inr a) => k a prs'
    | (prs', inl e) => (prs', inl e)
    end.

Definition lift {A : Type} (r : result A) : M A := fun prs => (prs, r).

Declare Scope script_scope.
Delimit Scope script_scope with script.
Notation "x <- m ;; k" := (bind m (fun x => k))
  (at level 61, m at next level, right associativity) : script_scope.
Notation "m ;; k" := (bind m (fun _ => k))
  (at level 61, right associativity) : script_scope.

(** [prs.slides.add_slide(layout)] *)
Definition add_slide : M unit := fun prs => (prs ++ [[]], inr tt).

Fixpoint on_last (sh : shape) (prs : Presentation) : Presentation :=
  match prs with
  | [] => []
  | [s] => [s ++ [sh]]
  | s :: rest => s :: on_last sh rest
  end.

(** A shape added to [slide], the slide created last. *)
Definition add_shape (sh : shape) : M unit :=
  fun prs => (on_last sh prs, inr tt).

(** [slide.shapes.add_textbox(...)] followed by [text_frame.text = text]
    (lines 51-53, 59-61 and the like).  The box is created first; the
    assignment of [None] raises, and the box stays without a text. *)
Definition add_textbox (text : option string) : M unit :=
  match text with
  | Some s => add_shape (TextBox (Some s))
  | None => fun prs => (on_last (TextBox None) prs, inl AttributeError)
  end.

(** ** The report (lines 44-172) *)

Definition NL : string := String "010"%char EmptyString.

(** [f"{v}"] for a value that is a [str] or [None]. *)
Definition fmt_optional (v : option string) : string :=
  match v with
  | Some s => s
  | None => "None"
  end.

Definition date_text (md : Metadata) : string :=
  "Analysis Date: " ++ fmt_optional (date md).

Record SummaryStatistics := {
  total_stocks : nat;
  avg_mktcap : float64;
  median_mktcap : float64;
  total_mktcap : float64;
  num_sectors : nat
}.

(** Line 77, [df['MktCap'].sum()]: the wrapping integer sum of an int64
    Series, the float64 sum otherwise. *)
Definition mktcap_sum (df : DataFrame) (mktcap : list float64) : float64 :=
  match Pd.getitem df "MktCap" with
  | inr raw =>
      match mktcap_int64 raw with
      | Some zs => Fin (inject_Z (Pd.sum_int64 zs))
      | None => Pd.sum mktcap
      end
  | inl _ => Pd.sum mktcap
  end.

(** The float64 values [mean] and [median] work on (lines 75-76): those
    of an int64 Series are its integers converted. *)
Definition mktcap_floats (df : DataFrame) (mktcap : list float64)
  : list float64 :=
  match Pd.getitem df "MktCap" with
  | inr raw =>
      match mktcap_int64 raw with
      | Some _ => map F.to_float mktcap
      | None => mktcap
      end
  | inl _ => mktcap
  end.

(** Lines 74-78; [mktcap] is the coerced column. *)
Definition summary_statistics (df : DataFrame) (mktcap : list float64)
  : result SummaryStatistics :=
  match Pd.getitem df "SectorCode" with
  | inl e => inl e
  | inr sectors =>
      inr {| total_stocks := Pd.len df;
             avg_mktcap := Pd.mean (mktcap_floats df mktcap);
             median_mktcap := Pd.median (mktcap_floats df mktcap);
             total_mktcap := mktcap_sum df mktcap;
             num_sectors := Pd.nunique sectors |}
  end.

(** Lines 81-91, the f-string as written. *)
Definition stats_text (st : SummaryStatistics) : string :=
  NL ++ "Total Number of Stocks: " ++ Fmt.int_commas (total_stocks st) ++ NL
  ++ NL ++ "Total Market Cap: $" ++ Fmt.fixed true 2 (total_mktcap st) ++ "M"
  ++ NL
  ++ NL ++ "Average Market Cap: $" ++ Fmt.fixed true 2 (avg_mktcap st) ++ "M"
  ++ NL
  ++ NL ++ "Median Market Cap: $" ++ Fmt.fixed true 2 (median_mktcap st) ++ "M"
  ++ NL
  ++ NL ++ "Number of Sectors: " ++ Fmt.digits_of_N (N.of_nat (num_sectors st))
  ++ NL.

(** Line 112: [(count / total_stocks) * 100]: the quotient of the two
    integers as a float64, then the product as a float64.  The loop runs
    once per sector, so [total_stocks] is positive whenever this is
    evaluated. *)
Definition pct (count total : nat) : float64 :=
  F.mul (F.round (inject_Z (Z.of_nat count) / inject_Z (Z.of_nat total)))
        (F.of_Z 100).

(** The sector breakdown the loop of lines 109-113 walks through. *)
Definition sector_breakdown (sectors : list cell) (total : nat)
  : list (string * nat * float64) :=
  map (fun kc => (fst kc, snd kc, pct (snd kc) total)) (Pd.value_counts sectors).

Definition sector_line (row : string * nat * float64) : string :=
  let '(sector, count, p) := row in
  sector ++ ": " ++ Fmt.int_commas count
  ++ " (" ++ Fmt.fixed false 1 p ++ "%)" ++ NL.

Definition sector_text (sectors : list cell) (total : nat) : string :=
  fold_left (fun text row => (text ++ sector_line row)%string)
    (sector_breakdown sectors total)
    ("Stock Count by Sector:" ++ NL ++ NL)%string.

(** A row of [top_stocks]. *)
Record Ranked := {
  Ticker : cell;
  Name : cell;
  MktCap : float64;
  SectorCode : cell
}.

Definition field (df : DataFrame) (name : string) (r : list cell) : cell :=
  match Pd.index_of name (columns df) with
  | Some i => nth i r CNaN
  | None => CNaN
  end.

Definition project (df : DataFrame) (rx : list cell * float64) : Ranked :=
  {| Ticker := field df "Ticker" (fst rx);
     Name := field df "Name" (fst rx);
     MktCap := snd rx;
     SectorCode := field df "SectorCode" (fst rx) |}.

Definition K : nat := 15.

(** Line 130: [df.nlargest(15, 'MktCap')[['Ticker', 'Name', 'MktCap',
    'SectorCode']]]; the selection of columns raises [KeyError] with the
    labels that are not columns. *)
Definition top_stocks (df : DataFrame) (mktcap : list float64)
  : result (list Ranked) :=
  let largest := Pd.nlargest K snd (combine (rows df) mktcap) in
  let wanted := ["Ticker"; "Name"; "MktCap"; "SectorCode"] in
  match filter (fun n => negb (existsb (String.eqb n) (columns df))) wanted with
  | [] => inr (map (project df) largest)
  | missing => inl (KeyError missing)
  end.

Definition headers : list string :=
  ["Ticker"; "Name"; "Market Cap ($M)"; "Sector"].

(** Lines 160-164. *)
Definition table_row (r : Ranked) : list string :=
  [ Pd.astype_str (Ticker r);
    Py.slice_to 40 (Pd.astype_str (Name r));
    ("$" ++ Fmt.fixed true 2 (MktCap r))%string;
    Pd.astype_str (SectorCode r) ].

Local Open Scope script_scope.

(** The script from line 26 on.  [csv] is what
    [pd.read_csv(file_path, skiprows=3)] did: a frame or an exception. *)
Definition main (lines : list string) (csv : result DataFrame) : M unit :=
  let md := metadata lines in
  df0 <- lift csv ;;
  let df := drop_unnamed df0 in
  mktcap <- lift (mktcap_column df) ;;
  (* slide 1 *)
  add_slide ;;
  add_textbox (title md) ;;
  add_textbox (Some (date_text md)) ;;
  (* slide 2 *)
  add_slide ;;
  add_textbox (Some "Universe Summary Statistics") ;;
  st <- lift (summary_statistics df mktcap) ;;
  add_textbox (Some (Py.strip (stats_text st))) ;;
  (* slide 3 *)
  add_slide ;;
  add_textbox (Some "Sector Breakdown") ;;
  sectors <- lift (Pd.getitem df "SectorCode") ;;
  add_textbox (Some (sector_text sectors (total_stocks st))) ;;
  (* slide 4 *)
  add_slide ;;
  add_textbox (Some "Top 15 Stocks by Market Cap") ;;
  top <- lift (top_stocks df mktcap) ;;
  add_shape (Table (headers :: map table_row top)) ;;
  ret tt.

Local Close Scope script_scope.

(** A run from the empty presentation: the presentation at exit and how
    the script ended. *)
Definition run (lines : list string) (csv : result DataFrame)
  : Presentation * result unit :=
  main lines csv [].

(** [prs.save] is the last statement: the file is written exactly when
    nothing was raised before. *)
Definition saved (lines : list string) (csv : result DataFrame)
  : option Presentation :=
  match run lines csv with
  | (prs, inr _) => Some prs
  | (_, inl _) => None
  end.

(** ** Specification-side notions the statements below compare with *)

(** A string made of whitespace only. *)
Definition blank (s : string) : Prop :=
  Forall (fun c => Py.is_space c = true) (list_ascii_of_string s).

(** [t] neither starts nor ends with whitespace. *)
Definition tight (t : string) : Prop :=
  match list_ascii_of_string t with
  | [] => True
  | c :: l => Py.is_space c = false /\ Py.is_space (last l c) = false
  end.

(** [t] is [tok] without its surrounding whitespace. *)
Definition trimmed (tok t : string) : Prop :=
  exists l r, tok = (l ++ t ++ r)%string /\ blank l /\ blank r /\ tight t.

Definition comma_free (s : string) : Prop :=
  ~ In ","%char (list_ascii_of_string s).

(** [r] is the first token of [line] that is non-empty after trimming,
    the tokens being the comma-separated pieces of the line. *)
Definition first_nonempty_token (line : string) (r : option string) : Prop :=
  exists tokens,
    Py.join "," tokens = line /\ Forall comma_free tokens /\
    match r with
    | Some t =>
        exists pre tok post,
          tokens = pre ++ tok :: post /\ Forall blank pre /\
          trimmed tok t /\ t <> EmptyString
    | None => Forall blank tokens
    end.

(** The field a designated line yields: that token, or null when the line
    does not exist. *)
Definition field_of_line (lines : list string) (i : nat) (r : option string)
  : Prop :=
  match nth_error lines i with
  | Some line => first_nonempty_token line r
  | None => r = None
  end.



(** Whole numbers as float64 values, their sum and the sum of their
    absolute values. *)
Definition whole (z : Z) : float64 := Fin (inject_Z z).





(** The middle of a list of values: the first and the last value are
    dropped until one value is left, which is the middle, or two, whose
    mean is. *)
Fixpoint middle_from (fuel : nat) (v : list float64) : float64 :=
  match v with
  | [] => NaN
  | [a] => a
  | [a; b] => F.div (F.add a b) (whole 2)
  | _ :: t =>
      match fuel with
      | O => NaN
      | S k => middle_from k (removelast t)
      end
  end.

Definition middle (v : list float64) : float64 :=
  middle_from (List.length v) v.

(** A column name that starts with the string [Unnamed]. *)
Definition starts_with_unnamed (name : string) : Prop :=
  exists rest, name = ("Unnamed" ++ rest)%string.

(** Position of the first occurrence of a cell in a column (its length
    when there is none), and the number of occurrences. *)
Fixpoint first_pos (c : cell) (col : list cell) : nat :=
  match col with
  | [] => O
  | x :: t => if cell_eqb x c then O else S (first_pos c t)
  end.

Definition occurrences (c : cell) (col : list cell) : nat :=
  List.length (filter (cell_eqb c) col).

Definition notnull (c : cell) : bool := negb (cell_isna c).

(** The sector count the specification describes: the distinct values of
    the column, null being one of them when it occurs. *)
Definition sector_count_with_null (col : list cell) : nat :=
  List.length (nodup cell_eq_dec col).

(** The number of distinct non-null values of the column. *)
Definition distinct_non_null (col : list cell) : nat :=
  List.length (nodup cell_eq_dec (filter notnull col)).

(** Descending count, ties by first-seen position. *)
Definition breakdown_order (col : list cell) (a b : string * nat * float64)
  : Prop :=
  snd (fst b) < snd (fst a)
  \/ (snd (fst a) = snd (fst b)
      /\ first_pos (CStr (fst (fst a))) col < first_pos (CStr (fst (fst b))) col).

(** One step of the occurrence table, and the count it records for a key
    (0 when the key is not in the table). *)
Definition vc_step (tbl : list (string * nat)) (c : cell) : list (string * nat) :=
  match c with CNaN => tbl | CStr s => Pd.bump s tbl end.

Fixpoint get (s : string) (tbl : list (string * nat)) : nat :=
  match tbl with
  | [] => 0
  | (k, n) :: t => if String.eqb k s then n else get s t
  end.

(** Ordered by [before], and by [R] where [before] does not decide. *)
Definition lex {A : Type} (before : A -> A -> bool) (R : A -> A -> Prop)
    (a b : A) : Prop :=
  before a b = true \/ (before b a = false /\ R a b).


(** All records of the frame, with the coerced market cap. *)
Definition records (df : DataFrame) (mktcap : list float64) : list Ranked :=
  map (project df) (combine (rows df) mktcap).

Definition has_mktcap (r : Ranked) : bool := F.notna (MktCap r).

(** The value without the sign of zero, which the order does not see. *)
Definition unsigned (x : float64) : float64 :=
  match x with NegZero => Fin 0 | _ => x end.

(** The comparisons the two sorts of the script use: a larger count first,
    a larger market cap first. *)
Definition by_count (a b : string * nat) : bool := snd b <? snd a.

Definition desc (a b : Ranked) : bool := F.lt (MktCap b) (MktCap a).

(** The records with a market cap, by descending market cap. *)
Definition ranking (df : DataFrame) (mktcap : list float64) : list Ranked :=
  stable_sort desc (filter has_mktcap (records df mktcap)).

(** The three market-cap figures as displayed. *)
Definition shown (x : float64) : string := Fmt.fixed true 2 x.

(** "All zero, or all one and the same marker". *)
Definition consistent_no_data (st : SummaryStatistics) : Prop :=
  (total_mktcap st = F.zero /\ avg_mktcap st = F.zero
   /\ median_mktcap st = F.zero)
  \/ (exists marker,
        shown (total_mktcap st) = marker /\ shown (avg_mktcap st) = marker
        /\ shown (median_mktcap st) = marker).

(** The four slides as the script fills them. *)
Definition title_slide (md : Metadata) : slide :=
  [TextBox (title md); TextBox (Some (date_text md))].

Definition summary_heading : shape :=
  TextBox (Some "Universe Summary Statistics").

Definition summary_slide (st : SummaryStatistics) : slide :=
  [summary_heading; TextBox (Some (Py.strip (stats_text st)))].

Definition breakdown_slide (sectors : list cell) (total : nat) : slide :=
  [TextBox (Some "Sector Breakdown");
   TextBox (Some (sector_text sectors total))].

Definition table_heading : shape :=
  TextBox (Some "Top 15 Stocks by Market Cap").

Definition table_slide (top : list Ranked) : slide :=
  [table_heading; Table (headers :: map table_row top)].

(** The statistics of a frame without records. *)
Definition no_data_statistics : SummaryStatistics :=
  {| total_stocks := 0; avg_mktcap := NaN; median_mktcap := NaN;
     total_mktcap := Fin 0; num_sectors := 0 |}.

Definition no_data_text : string :=
  "Total Number of Stocks: 0" ++ NL ++ NL
  ++ "Total Market Cap: $0.00M" ++ NL ++ NL
  ++ "Average Market Cap: $nanM" ++ NL ++ NL
  ++ "Median Market Cap: $nanM" ++ NL ++ NL
  ++ "Number of Sectors: 0".

(** ** Sample inputs *)

Definition required_columns : list string :=
  ["Ticker"; "Name"; "MktCap"; "SectorCode"].

Definition empty_df : DataFrame :=
  {| columns := required_columns; rows := [] |}.

Definition five_df : DataFrame :=
  {| columns := ["Ticker"; "Name"; "Unnamed: 2"; "MktCap"; "SectorCode"];
     rows := [ [CStr "AAA"; CStr "Alpha"; CNaN; CStr "100"; CStr "A"];
               [CStr "BBB"; CStr "Beta"; CNaN; CNaN; CStr "B"];
               [CStr "CCC"; CStr "Gamma"; CNaN; CStr "300"; CStr "A"];
               [CStr "DDD"; CStr "Delta"; CNaN; CStr "200"; CStr "A"];
               [CStr "EEE"; CStr "Epsilon"; CNaN; CStr "50"; CStr "B"] ] |}.

Definition two_df : DataFrame :=
  {| columns := required_columns;
     rows := [ [CStr "AAA"; CStr "Alpha"; CStr "100"; CStr "A"];
               [CStr "BBB"; CStr "Beta"; CNaN; CNaN] ] |}.




(** Eighty records: 57 of sector B, then 23 of sector A. *)
Definition eighty_df : DataFrame :=
  {| columns := required_columns;
     rows := repeat [CStr "BBB"; CStr "Beta"; CStr "1"; CStr "B"] 57
             ++ repeat [CStr "AAA"; CStr "Alpha"; CStr "1"; CStr "A"] 23 |}.

Definition no_sector_df : DataFrame :=
  {| columns := ["Ticker"; "Name"; "MktCap"];
     rows := [ [CStr "AAA"; CStr "Alpha"; CStr "100"] ] |}.

Definition preamble : list string := ["Universe,,"; "2024-01-31"; "notes"].

Definition no_title_preamble : list string :=
  [" , "; "2024-01-31"; "notes"].

Definition no_date_preamble : list string := ["Universe,,"; " , "; "notes"].

(** ** Locating and reading the snapshot (lines 9-17) *)

(** An entry of the directory [Universe Data]: its name and the
    modification time [stat().st_mtime]. *)
Record DirEntry := {
  entry_name : string;
  st_mtime : Q
}.

(** [s.endswith(suffix)] *)
Fixpoint endswith (s suffix : string) : bool :=
  if String.eqb s suffix then true
  else match s with
       | EmptyString => false
       | String _ s' => endswith s' suffix
       end.

Fixpoint drop_chars (n : nat) (s : string) : string :=
  match n, s with
  | S k, String _ s' => drop_chars k s'
  | _, _ => s
  end.

(** The glob pattern [P123_Screen_*.csv] on a file name (case-sensitive):
    the fixed head, anything, the fixed tail. *)
Definition is_snapshot (name : string) : bool :=
  Py.startswith name "P123_Screen_"
  && endswith (drop_chars 12 name) ".csv".

(** The loop of [max(items, key=...)] once a first item is in hand: a later
    item replaces the best one only when its key is strictly greater. *)
Fixpoint max_from (best : DirEntry) (items : list DirEntry) : DirEntry :=
  match items with
  | [] => best
  | e :: rest =>
      match (st_mtime best ?= st_mtime e)%Q with
      | Lt => max_from e rest
      | _ => max_from best rest
      end
  end.

(** Lines 10-13: the newest entry the pattern matches, in the order the
    directory lists them; [None] stands for the [ValueError] that [max]
    raises on an empty sequence. *)
Definition latest_snapshot (dir : list DirEntry) : option DirEntry :=
  match filter (fun e => is_snapshot (entry_name e)) dir with
  | [] => None
  | e :: rest => Some (max_from e rest)
  end.

(** [line.rstrip("\n")] *)
Fixpoint rstrip_newlines (s : string) : string :=
  match s with
  | EmptyString => EmptyString
  | String c s' =>
      match rstrip_newlines s' with
      | EmptyString =>
          if Ascii.eqb c "010" then EmptyString else String c EmptyString
      | r => String c r
      end
  end.

(** Line 17: [lines = [line.rstrip("\n") for line in f]]. *)
Definition read_lines (raw : list string) : list string :=
  map rstrip_newlines raw.

(** ** Further notions used in the statements *)

(** A name the pattern describes. *)
Definition snapshot_name (name : string) : Prop :=
  exists middle, name = ("P123_Screen_" ++ middle ++ ".csv")%string.

(** The test of line 34 on one column name. *)
Definition keep (c : string) : bool := negb (Py.startswith c "Unnamed").

(** The comparison of [nlargest]: the row with the larger key first. *)
Definition larger_first {R : Type} (key : R -> float64) (a b : R) : bool :=
  F.lt (key b) (key a).

(** A frame whose rows are as long as its header. *)
Definition rectangular (df : DataFrame) : Prop :=
  Forall (fun r => List.length r = List.length (columns df)) (rows df).

(** The cells of a table: one header row and one row per ranked record. *)
Definition table_cells (top : list Ranked) : list (list string) :=
  headers :: map table_row top.

(** * Properties *)

(** ** Strings: [split], [strip] and the first-token loop *)

Section Strings.

Lemma chars_app (a b : string) :
  list_ascii_of_string (a ++ b) = list_ascii_of_string a ++ list_ascii_of_string b.
Proof. induction a as [|c a IH]; simpl; [reflexivity | now rewrite IH]. Qed.

Lemma blank_app (a b : string) : blank a -> blank b -> blank (a ++ b).
Proof.
  unfold blank. intros Ha Hb. rewrite chars_app. apply Forall_app. now split.
Qed.

Lemma split_not_nil (sep : ascii) (s : string) : Py.split sep s <> [].
Proof.
  destruct s as [|c s]; simpl; [discriminate|].
  destruct (Ascii.eqb c sep); [discriminate|].
  destruct (Py.split sep s); discriminate.
Qed.

Lemma join_cons (sep x : string) (y : string) (l : list string) :
  Py.join sep (x :: y :: l) = (x ++ sep ++ Py.join sep (y :: l))%string.
Proof. reflexivity. Qed.

(** Joining the pieces with the separator gives the string back. *)
Lemma join_split (sep : ascii) (s : string) :
  Py.join (String sep EmptyString) (Py.split sep s) = s.
Proof.
  induction s as [|c s IH]; [reflexivity|].
  simpl. pose proof (split_not_nil sep s) as Hne.
  destruct (Ascii.eqb_spec c sep) as [->|Hc].
  - destruct (Py.split sep s) as [|h t]; [congruence|].
    rewrite join_cons, IH. reflexivity.
  - destruct (Py.split sep s) as [|h t]; [congruence|].
    destruct t as [|h' t].
    + simpl in *. now rewrite IH.
    + rewrite join_cons. rewrite join_cons in IH.
      set (j := Py.join (String sep EmptyString) (h' :: t)) in *.
      transitivity (String c (h ++ String sep EmptyString ++ j));
        [reflexivity | now rewrite IH].
Qed.

(** No piece contains the separator. *)
Lemma split_sep_free (sep : ascii) (s : string) :
  Forall (fun t => ~ In sep (list_ascii_of_string t)) (Py.split sep s).
Proof.
  induction s as [|c s IH]; simpl.
  - constructor; [intros []|constructor].
  - destruct (Ascii.eqb_spec c sep) as [->|Hc].
    + constructor; [intros []|assumption].
    + destruct (Py.split sep s) as [|h t].
      * constructor; [|constructor]. simpl. intros [E|[]]. congruence.
      * inversion IH as [|? ? Hh Ht]; subst. constructor; [|assumption].
        simpl. intros [E|E]; [congruence|auto].
Qed.

Lemma last_cons_default {A : Type} (a : A) (l : list A) (d d' : A) :
  last (a :: l) d = last (a :: l) d'.
Proof.
  revert a. induction l as [|b l IH]; intros a; [reflexivity|].
  change (last (b :: l) d = last (b :: l) d'). apply IH.
Qed.

Lemma lstrip_spec (s : string) :
  exists l, s = (l ++ Py.lstrip s)%string /\ blank l /\
    match Py.lstrip s with
    | EmptyString => True
    | String c _ => Py.is_space c = false
    end.
Proof.
  induction s as [|c s (l & E & Hl & Hh)].
  - exists EmptyString. repeat split. constructor.
  - simpl. destruct (Py.is_space c) eqn:Hc.
    + exists (String c l). repeat split.
      * simpl. now rewrite <- E.
      * constructor; assumption.
      * assumption.
    + exists EmptyString. repeat split; [constructor | assumption].
Qed.

Lemma rstrip_spec (s : string) :
  exists r, s = (Py.rstrip s ++ r)%string /\ blank r /\
    match list_ascii_of_string (Py.rstrip s) with
    | [] => True
    | c :: l => Py.is_space (last l c) = false
    end.
Proof.
  induction s as [|c s (r & E & Hr & Hlast)].
  - exists EmptyString. repeat split. constructor.
  - simpl. destruct (Py.rstrip s) as [|d x] eqn:Hrs.
    + simpl in E. subst r. destruct (Py.is_space c) eqn:Hc.
      * exists (String c s). repeat split. constructor; assumption.
      * exists s. repeat split; [assumption | exact Hc].
    + exists r. repeat split; [|assumption|].
      * simpl. simpl in E. now rewrite <- E.
      * cbn [list_ascii_of_string] in *.
        destruct (list_ascii_of_string x) as [|a l]; [exact Hlast|].
        change (last (d :: a :: l) c) with (last (a :: l) c).
        now rewrite (last_cons_default a l c d).
Qed.

(** [strip] removes exactly the surrounding whitespace. *)
Lemma strip_trimmed (s : string) : trimmed s (Py.strip s).
Proof.
  unfold trimmed, Py.strip.
  destruct (lstrip_spec s) as (l & El & Hl & Hhead).
  destruct (rstrip_spec (Py.lstrip s)) as (r & Er & Hr & Hlast).
  exists l, r. repeat split; try assumption.
  - rewrite <- Er. exact El.
  - unfold tight.
    destruct (Py.rstrip (Py.lstrip s)) as [|c x] eqn:Hrs; [exact I|].
    simpl in *. split; [|assumption].
    rewrite Er in Hhead. simpl in Hhead. exact Hhead.
Qed.

Lemma strip_empty_blank (s : string) : Py.strip s = EmptyString -> blank s.
Proof.
  intros E. destruct (strip_trimmed s) as (l & r & Es & Hl & Hr & _).
  rewrite E in Es. rewrite Es. apply blank_app; [assumption|].
  simpl. assumption.
Qed.

Lemma truthy_false (s : string) : Py.truthy s = false <-> s = EmptyString.
Proof. destruct s; simpl; split; congruence. Qed.

Lemma first_truthy_some (parts : list string) (t : string) :
  first_truthy parts = Some t ->
  exists pre post,
    parts = pre ++ t :: post /\ Forall (fun p => p = EmptyString) pre
    /\ t <> EmptyString.
Proof.
  induction parts as [|p ps IH]; simpl; [discriminate|].
  destruct (Py.truthy p) eqn:Hp.
  - intros [= ->]. exists [], ps. repeat split; [constructor|].
    intros ->. discriminate.
  - intros H. destruct (IH H) as (pre & post & E & Hpre & Ht).
    exists (p :: pre), post. repeat split; [now rewrite E | | assumption].
    constructor; [now apply truthy_false | assumption].
Qed.

Lemma first_truthy_none (parts : list string) :
  first_truthy parts = None -> Forall (fun p => p = EmptyString) parts.
Proof.
  induction parts as [|p ps IH]; simpl; [constructor|].
  destruct (Py.truthy p) eqn:Hp; [discriminate|].
  intros H. constructor; [now apply truthy_false | auto].
Qed.

Lemma Forall_strip_blank (toks : list string) :
  Forall (fun p => p = EmptyString) (map Py.strip toks) -> Forall blank toks.
Proof.
  induction toks as [|t ts IH]; simpl; intros H; [constructor|].
  inversion H; subst. constructor; [now apply strip_empty_blank | auto].
Qed.

Lemma lstrip_blank (s : string) : blank s -> Py.lstrip s = EmptyString.
Proof.
  induction s as [|c s IH]; [reflexivity|].
  intros H. inversion H as [|? ? Hc Hs]; subst. simpl. rewrite Hc. auto.
Qed.

Lemma strip_blank (s : string) : blank s -> Py.strip s = EmptyString.
Proof. intros H. unfold Py.strip. now rewrite lstrip_blank. Qed.

Lemma clean_blank_line (line : string) :
  Forall blank (Py.split "," line) -> clean_metadata_line line = None.
Proof.
  unfold clean_metadata_line.
  induction (Py.split "," line) as [|t ts IH]; intros H; [reflexivity|].
  inversion H; subst. simpl. rewrite strip_blank by assumption. simpl. auto.
Qed.

Lemma first_truthy_skip (pre rest : list string) :
  Forall blank pre ->
  first_truthy (map Py.strip (pre ++ rest)) = first_truthy (map Py.strip rest).
Proof.
  induction pre as [|p pre IH]; intros H; [reflexivity|].
  inversion H; subst. simpl. rewrite strip_blank by assumption. simpl. auto.
Qed.

(** The pieces are determined by the joined string. *)
Lemma split_piece (sep : ascii) (t : string) :
  ~ In sep (list_ascii_of_string t) -> Py.split sep t = [t].
Proof.
  induction t as [|c t IH]; simpl; intros H; [reflexivity|].
  destruct (Ascii.eqb_spec c sep) as [->|Hc]; [tauto|].
  rewrite IH by tauto. reflexivity.
Qed.

Lemma split_app_sep (sep : ascii) (t s : string) :
  ~ In sep (list_ascii_of_string t) ->
  Py.split sep (t ++ String sep s) = t :: Py.split sep s.
Proof.
  induction t as [|c t IH]; simpl; intros H.
  - now rewrite Ascii.eqb_refl.
  - destruct (Ascii.eqb_spec c sep) as [->|Hc]; [tauto|].
    rewrite IH by tauto. reflexivity.
Qed.

Lemma split_join (sep : ascii) (tokens : list string) :
  tokens <> [] ->
  Forall (fun t => ~ In sep (list_ascii_of_string t)) tokens ->
  Py.split sep (Py.join (String sep EmptyString) tokens) = tokens.
Proof.
  induction tokens as [|t ts IH]; intros Hne H; [congruence|].
  inversion H as [|? ? Ht Hts]; subst.
  destruct ts as [|t' ts]; [now apply split_piece|].
  rewrite join_cons.
  set (j := Py.join (String sep EmptyString) (t' :: ts)) in *.
  change (t ++ String sep EmptyString ++ j)%string
    with (t ++ String sep j)%string.
  rewrite split_app_sep by assumption.
  rewrite IH; [reflexivity | discriminate | assumption].
Qed.

(** Trimming has one result only. *)
Lemma lstrip_app_blank (l u : string) :
  blank l -> Py.lstrip (l ++ u) = Py.lstrip u.
Proof.
  induction l as [|c l IH]; intros H; [reflexivity|].
  inversion H as [|? ? Hc Hl]; subst. simpl. rewrite Hc. auto.
Qed.

Lemma rstrip_blank (s : string) : blank s -> Py.rstrip s = EmptyString.
Proof.
  induction s as [|c s IH]; [reflexivity|].
  intros H. inversion H as [|? ? Hc Hs]; subst.
  simpl. rewrite IH by assumption. now rewrite Hc.
Qed.

Lemma rstrip_app_blank (u r : string) :
  blank r -> Py.rstrip (u ++ r) = Py.rstrip u.
Proof.
  intros H. induction u as [|c u IH]; simpl.
  - now apply rstrip_blank.
  - now rewrite IH.
Qed.

Lemma rstrip_tight (c : ascii) (u : string) :
  Py.is_space (last (list_ascii_of_string u) c) = false ->
  Py.rstrip (String c u) = String c u.
Proof.
  revert c. induction u as [|d u IH]; intros c H; simpl in *.
  - now rewrite H.
  - assert (Hd : Py.is_space (last (list_ascii_of_string u) d) = false).
    { destruct (list_ascii_of_string u) as [|a l]; [assumption|].
      now rewrite (last_cons_default a l d c). }
    specialize (IH d Hd). simpl in IH. now rewrite IH.
Qed.

Lemma trimmed_strip (tok t : string) : trimmed tok t -> Py.strip tok = t.
Proof.
  intros (l & r & -> & Hl & Hr & Ht). unfold Py.strip.
  rewrite lstrip_app_blank by assumption.
  destruct t as [|c x].
  - simpl. rewrite lstrip_blank by assumption. reflexivity.
  - unfold tight in Ht. simpl in Ht. destruct Ht as [Hc Hlast].
    simpl. rewrite Hc.
    change (String c (x ++ r)) with (String c x ++ r)%string.
    rewrite rstrip_app_blank by assumption.
    now apply rstrip_tight.
Qed.

(** The description has one answer only: the value the function returns. *)
Lemma first_nonempty_token_unique (line : string) (r : option string) :
  first_nonempty_token line r -> r = clean_metadata_line line.
Proof.
  intros (tokens & Hjoin & Hfree & Hr). unfold clean_metadata_line.
  destruct tokens as [|t0 ts].
  - simpl in Hjoin. subst line.
    destruct r as [t|]; [|reflexivity].
    destruct Hr as (pre & tok & post & E & _). now destruct pre.
  - rewrite <- Hjoin. rewrite split_join by (assumption || discriminate).
    destruct r as [t|].
    + destruct Hr as (pre & tok & post & -> & Hpre & Htok & Hne).
      rewrite first_truthy_skip by assumption.
      simpl. rewrite (trimmed_strip _ _ Htok).
      destruct t; [congruence | reflexivity].
    + symmetry. clear Hjoin Hfree.
      induction (t0 :: ts) as [|t l IH]; [reflexivity|].
      inversion Hr; subst. simpl.
      rewrite strip_blank by assumption. simpl. auto.
Qed.

(** [clean_metadata_line] returns the first token that is non-empty after
    trimming, and [None] when there is none. *)
Lemma clean_metadata_line_spec (line : string) :
  first_nonempty_token line (clean_metadata_line line).
Proof.
  unfold first_nonempty_token, clean_metadata_line.
  exists (Py.split "," line). split; [apply join_split|].
  split; [apply split_sep_free|].
  destruct (first_truthy (map Py.strip (Py.split "," line))) as [t|] eqn:E.
  - apply first_truthy_some in E. destruct E as (pre & post & E & Hpre & Ht).
    apply map_eq_app in E. destruct E as (l1 & l2 & E1 & E2 & E3).
    apply map_eq_cons in E3. destruct E3 as (tok & l3 & E3 & E4 & E5).
    subst. exists l1, tok, l3.
    split; [exact E1|]. split; [now apply Forall_strip_blank|].
    split; [apply strip_trimmed | assumption].
  - apply first_truthy_none in E. now apply Forall_strip_blank.
Qed.

Lemma metadata_field_spec (lines : list string) (i : nat) :
  field_of_line lines i (metadata_field lines i).
Proof.
  unfold field_of_line, metadata_field.
  destruct (Nat.ltb_spec i (List.length lines)) as [Hi|Hi].
  - destruct (nth_error lines i) as [line|] eqn:E.
    + rewrite (nth_error_nth _ _ _ E). apply clean_metadata_line_spec.
    + apply nth_error_None in E. lia.
  - apply nth_error_None in Hi. now rewrite Hi.
Qed.

Lemma field_of_line_iff (lines : list string) (i : nat) (r : option string) :
  field_of_line lines i r <-> r = metadata_field lines i.
Proof.
  split; [|intros ->; apply metadata_field_spec].
  unfold field_of_line, metadata_field.
  destruct (nth_error lines i) as [line|] eqn:E.
  - intros H. apply first_nonempty_token_unique in H.
    assert (Hi : i < List.length lines)
      by (apply nth_error_Some; congruence).
    apply Nat.ltb_lt in Hi. rewrite Hi.
    now rewrite (nth_error_nth _ _ _ E).
  - intros ->. apply nth_error_None in E.
    destruct (Nat.ltb_spec i (List.length lines)); [lia | reflexivity].
Qed.

End Strings.

(** C7. Each of the three metadata fields is the first token of its line
    (title: line 0, date: line 1, notes: line 2) that is non-empty after
    splitting on commas and trimming whitespace, and null when there is no
    such token or no such line; the line [" , , Q3 Report , "] yields
    ["Q3 Report"]. *)
Theorem metadata_first_nonempty_token (lines : list string) :
  (forall r, field_of_line lines 0 r <-> r = title (metadata lines))
  /\ (forall r, field_of_line lines 1 r <-> r = date (metadata lines))
  /\ (forall r, field_of_line lines 2 r <-> r = notes (metadata lines))
  /\ clean_metadata_line " , , Q3 Report , " = Some "Q3 Report".
Proof.
  split; [|split; [|split]]; try (intros r; apply field_of_line_iff).
  reflexivity.
Qed.

(** ** Market-cap coercion *)




Lemma round_not_nan (q : Q) : F.round q <> NaN.
Proof.
  unfold F.round, F.signed_zero. cbv zeta.
  repeat match goal with
         | |- context [if ?b then _ else _] => destruct b
         end; discriminate.
Qed.



(** ** A record appended to the frame *)

Section Statistics.



End Statistics.

(** ** Dropping the placeholder columns *)

Section DropUnnamed.

Lemma startswith_iff (s p : string) :
  Py.startswith s p = true <-> exists rest, s = (p ++ rest)%string.
Proof.
  unfold Py.startswith. revert s.
  induction p as [|a p IH]; intros s; simpl.
  - split; [intros _; now exists s | intros _; now destruct s].
  - destruct s as [|b s].
    + split; [discriminate | intros [rest E]; discriminate].
    + simpl. destruct (ascii_dec a b) as [->|Hab].
      * split.
        -- intros H. apply IH in H. destruct H as [rest ->]. now exists rest.
        -- intros [rest E]. apply IH. exists rest. now injection E.
      * split; [discriminate | intros [rest E]; injection E; congruence].
Qed.

Lemma unnamed_iff (name : string) :
  Py.startswith name "Unnamed" = true <-> starts_with_unnamed name.
Proof. apply startswith_iff. Qed.

Lemma select_map_filter {A : Type} (f : A -> bool) (l : list A) :
  Pd.select (map f l) l = filter f l.
Proof.
  induction l as [|x l IH]; [reflexivity|].
  simpl. destruct (f x); now rewrite IH.
Qed.

Lemma index_of_none (name : string) (cols : list string) :
  Pd.index_of name cols = None <-> ~ In name cols.
Proof.
  induction cols as [|c cs IH]; simpl; [tauto|].
  destruct (String.eqb_spec c name) as [->|Hc].
  - split; [discriminate | intros H; exfalso; auto].
  - destruct (Pd.index_of name cs); simpl.
    + split; [discriminate|]. intros H.
      destruct (in_dec string_dec name cs) as [Hin|Hnin]; [tauto|].
      apply IH in Hnin. discriminate.
    + split; [|reflexivity]. intros _ [E|E]; [congruence|]. now apply IH.
Qed.

(** A kept column is found again, and every row has the same cell there. *)
Lemma index_of_select (f : string -> bool) (name : string) :
  f name = true ->
  forall (cols : list string) (i : nat),
    Pd.index_of name cols = Some i ->
    exists j,
      Pd.index_of name (Pd.select (map f cols) cols) = Some j
      /\ forall (r : list cell) (d : cell),
           nth j (Pd.select (map f cols) r) d = nth i r d.
Proof.
  intros Hf. induction cols as [|c cs IH]; intros i; simpl; [discriminate|].
  destruct (String.eqb_spec c name) as [->|Hc].
  - intros [= <-]. rewrite Hf. exists 0. simpl. rewrite String.eqb_refl.
    split; [reflexivity|]. intros [|x r] d; reflexivity.
  - destruct (Pd.index_of name cs) as [i'|] eqn:E; simpl; [|discriminate].
    intros [= <-]. destruct (IH i' eq_refl) as (j & Ej & Hj).
    destruct (f c).
    + exists (S j). simpl. destruct (String.eqb_spec c name); [congruence|].
      rewrite Ej. split; [reflexivity|].
      intros [|x r] d; [reflexivity | apply Hj].
    + exists j. split; [assumption|].
      intros [|x r] d; [now destruct j | apply Hj].
Qed.

Lemma drop_unnamed_columns (df : DataFrame) :
  columns (drop_unnamed df)
  = filter (fun c => negb (Py.startswith c "Unnamed")) (columns df).
Proof.
  unfold drop_unnamed, Pd.loc_columns. simpl.
  rewrite map_map. apply select_map_filter.
Qed.

Lemma drop_unnamed_keeps (df : DataFrame) (name : string) :
  ~ starts_with_unnamed name ->
  Pd.getitem (drop_unnamed df) name = Pd.getitem df name.
Proof.
  intros Hn.
  assert (Hf : negb (Py.startswith name "Unnamed") = true).
  { destruct (Py.startswith name "Unnamed") eqn:E; [|reflexivity].
    exfalso. apply Hn. now apply unnamed_iff. }
  unfold Pd.getitem.
  destruct (Pd.index_of name (columns df)) as [i|] eqn:E.
  - destruct (index_of_select (fun c => negb (Py.startswith c "Unnamed"))
                name Hf _ _ E) as (j & Ej & Hj).
    unfold drop_unnamed, Pd.loc_columns. simpl. rewrite map_map, Ej.
    f_equal. rewrite map_map. apply map_ext. intros r. apply Hj.
  - apply index_of_none in E.
    destruct (Pd.index_of name (columns (drop_unnamed df))) as [j|] eqn:E';
      [|reflexivity].
    exfalso. apply E.
    assert (H : In name (columns (drop_unnamed df))).
    { destruct (in_dec string_dec name (columns (drop_unnamed df))) as [H|H];
        [assumption|]. apply index_of_none in H. congruence. }
    rewrite drop_unnamed_columns in H. apply filter_In in H. tauto.
Qed.

Lemma drop_unnamed_removes (df : DataFrame) (name : string) :
  starts_with_unnamed name ->
  Pd.getitem (drop_unnamed df) name = inl (KeyError [name]).
Proof.
  intros Hn. apply unnamed_iff in Hn. unfold Pd.getitem.
  assert (H : Pd.index_of name (columns (drop_unnamed df)) = None).
  { apply index_of_none. rewrite drop_unnamed_columns. intros H.
    apply filter_In in H. destruct H as [_ H]. now rewrite Hn in H. }
  now rewrite H.
Qed.

End DropUnnamed.

(** C10. Column dropping removes exactly the columns whose name starts
    with ["Unnamed"] (a prefix test, so [UnnamedSource] goes too): the
    remaining names are the others in their original order, no row is
    added or lost, a removed name is no longer a column, and every other
    column reads the same cells in the same row order as before. *)
Theorem drop_unnamed_spec (df : DataFrame) :
  columns (drop_unnamed df)
  = filter (fun c => negb (Py.startswith c "Unnamed")) (columns df)
  /\ (forall name,
        In name (columns (drop_unnamed df))
        <-> In name (columns df) /\ ~ starts_with_unnamed name)
  /\ List.length (rows (drop_unnamed df)) = List.length (rows df)
  /\ (forall name,
        starts_with_unnamed name ->
        Pd.getitem (drop_unnamed df) name = inl (KeyError [name]))
  /\ (forall name,
        ~ starts_with_unnamed name ->
        Pd.getitem (drop_unnamed df) name = Pd.getitem df name)
  /\ columns (drop_unnamed
                {| columns := ["Ticker"; "UnnamedSource"; "Unnamed: 2"; "MktCap"];
                   rows := [[CStr "T"; CStr "src"; CNaN; CStr "1"]] |})
     = ["Ticker"; "MktCap"].
Proof.
  split; [apply drop_unnamed_columns|].
  split.
  { intros name. rewrite drop_unnamed_columns, filter_In, <- unnamed_iff.
    destruct (Py.startswith name "Unnamed"); simpl; intuition congruence. }
  split; [unfold drop_unnamed, Pd.loc_columns; simpl; apply length_map|].
  split; [intros name; apply drop_unnamed_removes|].
  split; [intros name; apply drop_unnamed_keeps | reflexivity].
Qed.

Lemma drop_unnamed_spec_witness :
  ~ starts_with_unnamed "MktCap"
  /\ Pd.getitem (drop_unnamed five_df) "MktCap" = Pd.getitem five_df "MktCap".
Proof.
  assert (H : ~ starts_with_unnamed "MktCap").
  { intros [rest E]. discriminate. }
  split; [exact H|].
  exact (proj1 (proj2 (proj2 (proj2 (proj2 (drop_unnamed_spec five_df)))))
           "MktCap" H).
Defined.

(** ** The stable sort *)

Section StableSortFacts.
Context {A : Type} (before : A -> A -> bool).

Lemma insert_perm (x : A) (l : list A) :
  Permutation (insert before x l) (x :: l).
Proof.
  induction l as [|y l IH]; simpl; [reflexivity|].
  destruct (before y x); [|reflexivity].
  rewrite IH. apply perm_swap.
Qed.

Lemma stable_sort_perm (l : list A) : Permutation (stable_sort before l) l.
Proof.
  induction l as [|x l IH]; simpl; [reflexivity|].
  rewrite insert_perm. now constructor.
Qed.

(** Elements among which none precedes another keep their order. *)
Section Stability.
Variable p : A -> bool.
Hypothesis tie : forall a b, p a = true -> p b = true -> before a b = false.

Lemma insert_filter (x : A) (l : list A) :
  filter p (insert before x l) = filter p (x :: l).
Proof.
  induction l as [|y l IH]; [reflexivity|].
  simpl. destruct (before y x) eqn:Hyx; [|reflexivity].
  simpl. simpl in IH. rewrite IH.
  destruct (p x) eqn:Hx; [|reflexivity].
  destruct (p y) eqn:Hy; [|reflexivity].
  rewrite (tie y x Hy Hx) in Hyx. discriminate.
Qed.

Lemma stable_sort_filter (l : list A) :
  filter p (stable_sort before l) = filter p l.
Proof.
  induction l as [|x l IH]; [reflexivity|].
  simpl. rewrite insert_filter. simpl. now rewrite IH.
Qed.
End Stability.

(** With a strict weak order the result is ordered, and on ties the
    order [R] of the input survives. *)
Section Order.
Hypothesis before_irrefl : forall a, before a a = false.
Hypothesis before_trans :
  forall a b c, before a b = true -> before b c = true -> before a c = true.
Hypothesis before_neg_trans :
  forall a b c, before a c = true -> before a b = true \/ before b c = true.
Variable R : A -> A -> Prop.

Lemma lex_not_after (a b : A) : lex before R a b -> before b a = false.
Proof.
  intros [H|[H _]]; [|assumption].
  destruct (before b a) eqn:E; [|reflexivity].
  pose proof (before_trans a b a H E) as Haa.
  rewrite before_irrefl in Haa. discriminate.
Qed.

Lemma insert_lex (x : A) (l : list A) :
  StronglySorted (lex before R) l -> Forall (R x) l ->
  StronglySorted (lex before R) (insert before x l).
Proof.
  induction l as [|y l IH]; intros Hs Hx; simpl.
  - constructor; constructor.
  - inversion Hs as [|? ? Hs' Hy]; subst.
    inversion Hx as [|? ? Rxy Hx']; subst.
    destruct (before y x) eqn:Hyx.
    + constructor; [auto|].
      apply (Permutation_Forall (Permutation_sym (insert_perm x l))).
      constructor; [now left | assumption].
    + constructor; [assumption|].
      constructor; [right; now split|].
      rewrite Forall_forall in *. intros z Hz. right.
      split; [|auto].
      destruct (before z x) eqn:Hzx; [|reflexivity].
      pose proof (lex_not_after y z (Hy z Hz)) as Hzy.
      destruct (before_neg_trans z y x Hzx); congruence.
Qed.

Lemma stable_sort_lex (l : list A) :
  StronglySorted R l -> StronglySorted (lex before R) (stable_sort before l).
Proof.
  induction l as [|x l IH]; intros Hs; simpl; [constructor|].
  inversion Hs; subst. apply insert_lex; [auto|].
  apply (Permutation_Forall (Permutation_sym (stable_sort_perm l))).
  assumption.
Qed.
End Order.
End StableSortFacts.

Lemma StronglySorted_weaken {A : Type} (R R' : A -> A -> Prop) (l : list A) :
  (forall a b, In a l -> In b l -> R a b -> R' a b) ->
  StronglySorted R l -> StronglySorted R' l.
Proof.
  induction l as [|x l IH]; intros H Hs; [constructor|].
  inversion Hs as [|? ? Hs' Hx]; subst. constructor.
  - apply IH; [|assumption]. intros a b Ha Hb. apply H; now right.
  - rewrite Forall_forall in *. intros y Hy.
    apply H; [now left | now right | auto].
Qed.

Lemma StronglySorted_map {A B : Type} (f : A -> B) (R : B -> B -> Prop)
    (l : list A) :
  StronglySorted R (map f l) <-> StronglySorted (fun a b => R (f a) (f b)) l.
Proof.
  induction l as [|x l IH]; simpl.
  - split; constructor.
  - split; intros H; inversion H as [|? ? Hs Hx]; subst; constructor;
      try (now apply IH); rewrite Forall_forall in *.
    + intros y Hy. apply Hx. now apply in_map.
    + intros y Hy. apply in_map_iff in Hy. destruct Hy as (a & <- & Ha). auto.
Qed.

Lemma StronglySorted_snoc {A : Type} (R : A -> A -> Prop) (l : list A) (x : A) :
  StronglySorted R l -> Forall (fun a => R a x) l ->
  StronglySorted R (l ++ [x]).
Proof.
  induction l as [|y l IH]; intros Hs Hx; simpl.
  - constructor; constructor.
  - inversion Hs; subst. inversion Hx; subst. constructor; [auto|].
    apply Forall_app. split; [assumption | now constructor].
Qed.

Lemma map_insert {A B : Type} (f : A -> B) (before : A -> A -> bool)
    (before' : B -> B -> bool) (x : A) (l : list A) :
  (forall a b, before' (f a) (f b) = before a b) ->
  map f (insert before x l) = insert before' (f x) (map f l).
Proof.
  intros H. induction l as [|y l IH]; [reflexivity|].
  simpl. rewrite H. destruct (before y x); simpl; now rewrite ?IH.
Qed.

Lemma map_stable_sort {A B : Type} (f : A -> B) (before : A -> A -> bool)
    (before' : B -> B -> bool) (l : list A) :
  (forall a b, before' (f a) (f b) = before a b) ->
  map f (stable_sort before l) = stable_sort before' (map f l).
Proof.
  intros H. induction l as [|x l IH]; [reflexivity|].
  simpl. rewrite (map_insert f before before' _ _ H). now rewrite IH.
Qed.

(** ** Distinct sector codes *)

Section Distinct.

Lemma cell_eqb_spec (a b : cell) : reflect (a = b) (cell_eqb a b).
Proof.
  destruct a as [|s], b as [|t]; simpl; try (constructor; congruence).
  destruct (String.eqb_spec s t); constructor; congruence.
Qed.

Lemma existsb_cell_eqb (c : cell) (l : list cell) :
  existsb (cell_eqb c) l = true <-> In c l.
Proof.
  rewrite existsb_exists. split.
  - intros (x & Hx & E). destruct (cell_eqb_spec c x); [now subst | discriminate].
  - intros H. exists c. split; [assumption|].
    destruct (cell_eqb_spec c c); [reflexivity | congruence].
Qed.

Lemma unique_snoc (col : list cell) (c : cell) :
  Pd.unique (col ++ [c])
  = if existsb (cell_eqb c) (Pd.unique col) then Pd.unique col
    else Pd.unique col ++ [c].
Proof. unfold Pd.unique. now rewrite fold_left_app. Qed.

Lemma unique_In (col : list cell) (c : cell) : In c (Pd.unique col) <-> In c col.
Proof.
  revert c. induction col as [|x col IH] using rev_ind; intros c;
    [reflexivity|].
  rewrite unique_snoc, in_app_iff. simpl.
  destruct (existsb (cell_eqb x) (Pd.unique col)) eqn:E.
  - apply existsb_cell_eqb in E. rewrite IH. rewrite IH in E.
    intuition (subst; auto).
  - rewrite in_app_iff, IH. simpl. reflexivity.
Qed.

Lemma unique_NoDup (col : list cell) : NoDup (Pd.unique col).
Proof.
  induction col as [|x col IH] using rev_ind; [constructor|].
  rewrite unique_snoc.
  destruct (existsb (cell_eqb x) (Pd.unique col)) eqn:E; [assumption|].
  apply NoDup_app; [assumption | repeat constructor; intros [] |].
  intros a Ha [<-|[]].
  apply existsb_cell_eqb in Ha. congruence.
Qed.

Lemma nunique_distinct_non_null (col : list cell) :
  Pd.nunique col = distinct_non_null col.
Proof.
  unfold Pd.nunique, distinct_non_null. apply Permutation_length.
  apply NoDup_Permutation.
  - apply NoDup_filter, unique_NoDup.
  - apply NoDup_nodup.
  - intros c. rewrite nodup_In, !filter_In, unique_In. reflexivity.
Qed.

Lemma with_null_count (col : list cell) :
  sector_count_with_null col
  = distinct_non_null col + (if existsb cell_isna col then 1 else 0).
Proof.
  unfold sector_count_with_null, distinct_non_null.
  set (nn := nodup cell_eq_dec (filter notnull col)).
  assert (Hnn : forall c, In c nn <-> In c col /\ notnull c = true).
  { intros c. unfold nn. now rewrite nodup_In, filter_In. }
  destruct (existsb cell_isna col) eqn:E.
  - rewrite Nat.add_comm. change (1 + List.length nn) with (List.length (CNaN :: nn)).
    apply Permutation_length, NoDup_Permutation.
    + apply NoDup_nodup.
    + constructor; [|apply NoDup_nodup].
      intros H. apply Hnn in H. now destruct H.
    + intros c. rewrite nodup_In. simpl. rewrite Hnn.
      apply existsb_exists in E. destruct E as (x & Hx & Hna).
      destruct x; [|discriminate].
      destruct c as [|s]; simpl; [tauto|].
      unfold notnull. simpl. intuition discriminate.
  - rewrite Nat.add_0_r. apply Permutation_length, NoDup_Permutation.
    + apply NoDup_nodup.
    + apply NoDup_nodup.
    + intros c. rewrite nodup_In, Hnn. split; [|tauto].
      intros H. split; [assumption|].
      destruct c; [|reflexivity].
      assert (existsb cell_isna col = true)
        by (apply existsb_exists; exists CNaN; now split).
      congruence.
Qed.

End Distinct.

(** C2, as the code has it.  [num_sectors] is the number of distinct
    non-null sector codes: [nunique] drops the null key, so a column with
    null codes reports one category fewer than the count that takes null
    as a category of its own. *)
Theorem sector_count_distinct_non_null
    (df : DataFrame) (mktcap : list float64) (st : SummaryStatistics) :
  summary_statistics df mktcap = inr st ->
  exists sectors,
    Pd.getitem df "SectorCode" = inr sectors
    /\ num_sectors st = distinct_non_null sectors
    /\ sector_count_with_null sectors
       = num_sectors st + (if existsb cell_isna sectors then 1 else 0).
Proof.
  unfold summary_statistics.
  destruct (Pd.getitem df "SectorCode") as [e|sectors]; [discriminate|].
  intros [= <-]. exists sectors. simpl.
  rewrite nunique_distinct_non_null, with_null_count. auto.
Qed.

Lemma sector_count_distinct_non_null_witness :
  summary_statistics two_df [Fin 100; NaN]
  = inr {| total_stocks := 2; avg_mktcap := Pd.mean [Fin 100; NaN];
           median_mktcap := Pd.median [Fin 100; NaN];
           total_mktcap := Pd.sum [Fin 100; NaN]; num_sectors := 1 |}
  /\ exists sectors,
       Pd.getitem two_df "SectorCode" = inr sectors
       /\ 1 = distinct_non_null sectors
       /\ sector_count_with_null sectors
          = 1 + (if existsb cell_isna sectors then 1 else 0).
Proof.
  split; [reflexivity|].
  exact (sector_count_distinct_non_null two_df [Fin 100; NaN] _ eq_refl).
Defined.

(** C2 as stated fails: with the codes [A] and null, the script reports
    one sector, the count with null as a category is two. *)
Lemma sector_count_with_null_counterexample :
  ~ (forall df mktcap st sectors,
       summary_statistics df mktcap = inr st ->
       Pd.getitem df "SectorCode" = inr sectors ->
       num_sectors st = sector_count_with_null sectors).
Proof.
  intros H.
  specialize (H two_df [Fin 100; NaN] _ [CStr "A"; CNaN] eq_refl eq_refl).
  discriminate H.
Qed.

(** ** The occurrence table behind [value_counts] *)

Section ValueCounts.

Lemma value_count_snoc (col : list cell) (c : cell) :
  Pd.value_count (col ++ [c]) = vc_step (Pd.value_count col) c.
Proof. unfold Pd.value_count. now rewrite fold_left_app. Qed.

Lemma bump_keys (k : string) (tbl : list (string * nat)) :
  map fst (Pd.bump k tbl)
  = if in_dec string_dec k (map fst tbl) then map fst tbl
    else map fst tbl ++ [k].
Proof.
  induction tbl as [|[k' n] t IH]; simpl; [reflexivity|].
  destruct (String.eqb_spec k' k) as [->|Hk]; simpl.
  - destruct (string_dec k k); [reflexivity | congruence].
  - rewrite IH. destruct (string_dec k' k); [congruence|].
    destruct (in_dec string_dec k (map fst t)); reflexivity.
Qed.

Lemma get_bump (s k : string) (tbl : list (string * nat)) :
  get s (Pd.bump k tbl) = get s tbl + (if String.eqb k s then 1 else 0).
Proof.
  induction tbl as [|[k' n] t IH]; simpl.
  - reflexivity.
  - destruct (String.eqb_spec k' k) as [->|Hk]; simpl.
    + destruct (String.eqb_spec k s); lia.
    + rewrite IH. destruct (String.eqb_spec k' s); [|reflexivity].
      destruct (String.eqb_spec k s); [congruence | lia].
Qed.

Lemma get_In (s : string) (n : nat) (tbl : list (string * nat)) :
  NoDup (map fst tbl) -> In (s, n) tbl -> get s tbl = n.
Proof.
  induction tbl as [|[k m] t IH]; simpl; [tauto|].
  intros Hnd [E|Hin].
  - injection E as -> ->. now rewrite String.eqb_refl.
  - inversion Hnd as [|? ? Hk Hnd']; subst.
    destruct (String.eqb_spec k s) as [->|_]; [|auto].
    exfalso. apply Hk. change s with (fst (s, n)). now apply in_map.
Qed.

Lemma occurrences_snoc (c x : cell) (col : list cell) :
  occurrences c (col ++ [x])
  = occurrences c col + (if cell_eqb c x then 1 else 0).
Proof.
  unfold occurrences. rewrite filter_app, length_app. simpl.
  now destruct (cell_eqb c x).
Qed.

Lemma first_pos_lt (c : cell) (col : list cell) :
  In c col -> first_pos c col < List.length col.
Proof.
  induction col as [|x col IH]; simpl; [tauto|].
  destruct (cell_eqb_spec x c); [lia|].
  intros [E|H]; [congruence|]. apply IH in H. lia.
Qed.

Lemma first_pos_app_in (c : cell) (col rest : list cell) :
  In c col -> first_pos c (col ++ rest) = first_pos c col.
Proof.
  induction col as [|x col IH]; simpl; [tauto|].
  destruct (cell_eqb_spec x c); [reflexivity|].
  intros [E|H]; [congruence|]. now rewrite IH.
Qed.

Lemma first_pos_new (c : cell) (col : list cell) :
  ~ In c col -> first_pos c (col ++ [c]) = List.length col.
Proof.
  induction col as [|x col IH]; simpl; intros H.
  - now destruct (cell_eqb_spec c c).
  - destruct (cell_eqb_spec x c); [tauto|]. rewrite IH; tauto.
Qed.

(** The keys of the table are the non-null values of the column. *)
Lemma value_count_keys (col : list cell) (s : string) :
  In s (map fst (Pd.value_count col)) <-> In (CStr s) col.
Proof.
  revert s. induction col as [|x col IH] using rev_ind; intros s;
    [reflexivity|].
  rewrite value_count_snoc, in_app_iff. destruct x as [|k]; simpl.
  - rewrite IH. intuition discriminate.
  - rewrite bump_keys.
    destruct (in_dec string_dec k (map fst (Pd.value_count col))) as [Hk|Hk].
    + rewrite IH. rewrite IH in Hk. intuition congruence.
    + rewrite in_app_iff, IH. simpl. intuition congruence.
Qed.

Lemma value_count_NoDup (col : list cell) :
  NoDup (map fst (Pd.value_count col)).
Proof.
  induction col as [|x col IH] using rev_ind; [constructor|].
  rewrite value_count_snoc. destruct x as [|k]; simpl; [assumption|].
  rewrite bump_keys.
  destruct (in_dec string_dec k (map fst (Pd.value_count col))) as [Hk|Hk];
    [assumption|].
  apply NoDup_app; [assumption | repeat constructor; intros [] |].
  intros a Ha [<-|[]]. contradiction.
Qed.

Lemma value_count_get (col : list cell) (s : string) :
  get s (Pd.value_count col) = occurrences (CStr s) col.
Proof.
  induction col as [|x col IH] using rev_ind; [reflexivity|].
  rewrite value_count_snoc, occurrences_snoc. destruct x as [|k]; simpl.
  - lia.
  - rewrite get_bump, IH. rewrite (String.eqb_sym s k). reflexivity.
Qed.

(** Every entry carries the number of occurrences of its key. *)
Lemma value_count_occurrences (col : list cell) (s : string) (n : nat) :
  In (s, n) (Pd.value_count col) -> n = occurrences (CStr s) col.
Proof.
  intros H. rewrite <- value_count_get. symmetry.
  apply get_In; [apply value_count_NoDup | assumption].
Qed.

(** The table lists its keys in the order they were first seen. *)
Lemma value_count_first_seen (col : list cell) :
  StronglySorted
    (fun s t => first_pos (CStr s) col < first_pos (CStr t) col)
    (map fst (Pd.value_count col)).
Proof.
  induction col as [|x col IH] using rev_ind; [constructor|].
  rewrite value_count_snoc.
  assert (Hkeep :
    StronglySorted
      (fun s t => first_pos (CStr s) (col ++ [x]) < first_pos (CStr t) (col ++ [x]))
      (map fst (Pd.value_count col))).
  { apply (StronglySorted_weaken
             (fun s t => first_pos (CStr s) col < first_pos (CStr t) col));
      [|assumption].
    intros a b Ha Hb. apply value_count_keys in Ha, Hb.
    now rewrite !first_pos_app_in. }
  destruct x as [|k]; simpl; [assumption|].
  rewrite bump_keys.
  destruct (in_dec string_dec k (map fst (Pd.value_count col))) as [Hk|Hk];
    [assumption|].
  apply StronglySorted_snoc; [assumption|].
  rewrite Forall_forall. intros a Ha. apply value_count_keys in Ha.
  rewrite first_pos_app_in by assumption.
  rewrite first_pos_new; [now apply first_pos_lt|].
  intros H. apply Hk. now apply value_count_keys.
Qed.

End ValueCounts.

(** ** The sector breakdown *)

Section Breakdown.

Lemma value_counts_perm (col : list cell) :
  Permutation (Pd.value_counts col) (Pd.value_count col).
Proof. apply stable_sort_perm. Qed.

Lemma value_counts_order (col : list cell) :
  StronglySorted
    (lex by_count
       (fun a b => first_pos (CStr (fst a)) col < first_pos (CStr (fst b)) col))
    (Pd.value_counts col).
Proof.
  apply stable_sort_lex.
  - intros a. apply Nat.ltb_irrefl.
  - unfold by_count. intros a b c H1 H2.
    apply Nat.ltb_lt in H1, H2. apply Nat.ltb_lt. lia.
  - unfold by_count. intros a b c H.
    apply Nat.ltb_lt in H. rewrite !Nat.ltb_lt. lia.
  - apply (proj1 (StronglySorted_map fst
                    (fun s t => first_pos (CStr s) col < first_pos (CStr t) col)
                    (Pd.value_count col))).
    apply value_count_first_seen.
Qed.

Lemma pct_value (count total : nat) :
  pct count total
  = F.mul (F.round (inject_Z (Z.of_nat count) / inject_Z (Z.of_nat total)))
      (whole 100).
Proof. reflexivity. Qed.

Lemma getitem_length (df : DataFrame) (name : string) (col : list cell) :
  Pd.getitem df name = inr col -> List.length col = Pd.len df.
Proof.
  unfold Pd.getitem, Pd.len.
  destruct (Pd.index_of name (columns df)); [|discriminate].
  intros [= <-]. apply length_map.
Qed.

End Breakdown.

(** C5, as the code has it.  The sector breakdown lists every sector code
    of the column once, with the number of records that carry it and a
    percentage; it is ordered by descending count, and sectors with equal
    counts follow the order in which they first occur in the input.  The
    percentage is computed in float64 as [(count / total) * 100], [total]
    being the number of records of the frame: the quotient is rounded to
    float64, and so is its product with 100.  (Records without a sector
    code form no group; they are part of [total].) *)
Theorem sector_breakdown_spec (df : DataFrame) (sectors : list cell) :
  Pd.getitem df "SectorCode" = inr sectors ->
  let bd := sector_breakdown sectors (Pd.len df) in
  List.length sectors = Pd.len df
  /\ NoDup (map (fun e => fst (fst e)) bd)
  /\ (forall s, In s (map (fun e => fst (fst e)) bd) <-> In (CStr s) sectors)
  /\ Forall
       (fun e =>
          snd (fst e) = occurrences (CStr (fst (fst e))) sectors
          /\ snd e
             = F.mul (F.round (inject_Z (Z.of_nat (snd (fst e)))
                               / inject_Z (Z.of_nat (Pd.len df))))
                 (whole 100))
       bd
  /\ StronglySorted (breakdown_order sectors) bd.
Proof.
  intros Hcol bd.
  assert (Hkeys : map (fun e => fst (fst e)) bd = map fst (Pd.value_counts sectors)).
  { unfold bd, sector_breakdown. rewrite map_map. reflexivity. }
  assert (Hperm : Permutation (map fst (Pd.value_counts sectors))
                    (map fst (Pd.value_count sectors)))
    by apply Permutation_map, value_counts_perm.
  split; [now apply getitem_length with (name := "SectorCode")|].
  split.
  { rewrite Hkeys. apply (Permutation_NoDup (Permutation_sym Hperm)).
    apply value_count_NoDup. }
  split.
  { intros s. rewrite Hkeys, <- value_count_keys.
    split; apply Permutation_in; [assumption | now symmetry]. }
  split.
  { unfold bd, sector_breakdown. rewrite Forall_map, Forall_forall.
    intros [s n] Hin. simpl. split; [|apply pct_value].
    apply value_count_occurrences.
    now apply (Permutation_in _ (value_counts_perm sectors)). }
  unfold bd, sector_breakdown. apply StronglySorted_map. simpl.
  eapply StronglySorted_weaken; [|apply value_counts_order].
  intros a b _ _ [H|[H1 H2]]; unfold breakdown_order; simpl.
  - left. now apply Nat.ltb_lt.
  - apply Nat.ltb_ge in H1.
    destruct (Nat.eq_dec (snd a) (snd b)) as [E|E]; [right; now split | left; lia].
Qed.

Lemma sector_breakdown_spec_witness :
  Pd.getitem five_df "SectorCode"
  = inr [CStr "A"; CStr "B"; CStr "A"; CStr "A"; CStr "B"]
  /\ StronglySorted
       (breakdown_order [CStr "A"; CStr "B"; CStr "A"; CStr "A"; CStr "B"])
       (sector_breakdown [CStr "A"; CStr "B"; CStr "A"; CStr "A"; CStr "B"]
          (Pd.len five_df)).
Proof.
  split; [reflexivity|].
  apply (sector_breakdown_spec five_df
           [CStr "A"; CStr "B"; CStr "A"; CStr "A"; CStr "B"] eq_refl).
Defined.

(** C5 as stated fails: with 23 of 80 records in a sector the percentage
    of the code is not [100 * 23 / 80 = 28.75] but the float64 below it,
    and the slide shows [28.7] where 28.75 would show as [28.8]. *)
Lemma sector_percentage_counterexample :
  Pd.len eighty_df = 80
  /\ (exists sectors,
        Pd.getitem eighty_df "SectorCode" = inr sectors
        /\ sector_breakdown sectors (Pd.len eighty_df)
           = [("B", 57, Fin (285 # 4));
              ("A", 23, Fin (8092405580431359 # 281474976710656))])
  /\ ~ (8092405580431359 # 281474976710656 == 100 * 23 / 80)%Q
  /\ sector_line ("A", 23, Fin (8092405580431359 # 281474976710656))
     = ("A: 23 (28.7%)" ++ NL)%string
  /\ sector_line ("A", 23, Fin (100 * 23 / 80))
     = ("A: 23 (28.8%)" ++ NL)%string
  /\ ~ (forall df sectors,
          Pd.getitem df "SectorCode" = inr sectors ->
          Forall
            (fun e =>
               exists q,
                 snd e = Fin q
                 /\ (q == 100 * inject_Z (Z.of_nat (snd (fst e)))
                          / inject_Z (Z.of_nat (Pd.len df)))%Q)
            (sector_breakdown sectors (Pd.len df))).
Proof.
  split; [reflexivity|]. split.
  { exists (repeat (CStr "B") 57 ++ repeat (CStr "A") 23).
    split; vm_compute; reflexivity. }
  split; [intros H; vm_compute in H; discriminate H|].
  split; [vm_compute; reflexivity|]. split; [vm_compute; reflexivity|].
  intros H.
  destruct (Pd.getitem eighty_df "SectorCode") as [e|sectors] eqn:E;
    [vm_compute in E; discriminate E|].
  specialize (H eighty_df sectors E).
  vm_compute in E. injection E as <-.
  vm_compute in H.
  inversion H as [|? ? _ H']; subst. inversion H' as [|? ? (q & Hq & Hv) _]; subst.
  injection Hq as <-. vm_compute in Hv. discriminate Hv.
Qed.

(** ** The order on float64 values *)

Section FloatOrder.

Lemma fin_lt (p q : Q) :
  match (p ?= q)%Q with Lt => true | _ => false end = true <-> (p < q)%Q.
Proof.
  rewrite Qlt_alt. destruct (p ?= q)%Q; split; congruence.
Qed.

Lemma lt_unsigned (x y : float64) : F.lt x y = F.lt (unsigned x) (unsigned y).
Proof. destruct x as [|[|]|p|], y as [|[|]|q|]; reflexivity. Qed.

Lemma lt_irrefl (a : float64) : F.lt a a = false.
Proof.
  destruct a as [|[|]|p|]; try reflexivity.
  simpl. destruct (p ?= p)%Q eqn:E; try reflexivity.
  apply Qlt_alt in E. now apply Qlt_irrefl in E.
Qed.

Lemma lt_trans (a b c : float64) :
  F.lt a b = true -> F.lt b c = true -> F.lt a c = true.
Proof.
  rewrite (lt_unsigned a b), (lt_unsigned b c), (lt_unsigned a c).
  assert (U : forall x, unsigned x <> NegZero) by (intros [|[|]|p|]; discriminate).
  pose proof (U a) as Ua. pose proof (U b) as Ub. pose proof (U c) as Uc.
  destruct (unsigned a) as [|[|]|p|], (unsigned b) as [|[|]|q|],
    (unsigned c) as [|[|]|r|];
    simpl; try congruence.
  rewrite !fin_lt. apply Qlt_trans.
Qed.

Lemma lt_neg_trans (a b c : float64) :
  F.lt a c = true -> F.lt a b = true \/ F.lt b c = true.
Proof.
  rewrite (lt_unsigned a b), (lt_unsigned b c), (lt_unsigned a c).
  assert (U : forall x, unsigned x <> NegZero) by (intros [|[|]|p|]; discriminate).
  pose proof (U a) as Ua. pose proof (U b) as Ub. pose proof (U c) as Uc.
  destruct (unsigned a) as [|[|]|p|], (unsigned b) as [|[|]|q|],
    (unsigned c) as [|[|]|r|];
    simpl; try congruence; auto.
  rewrite !fin_lt. intros H.
  destruct (Qlt_le_dec p q) as [Hpq|Hqp]; [now left | right].
  now apply Qle_lt_trans with p.
Qed.

Lemma same_not_lt (x y v : float64) :
  F.same x v = true -> F.same y v = true -> F.lt y x = false.
Proof.
  unfold F.same. intros Hx Hy.
  apply andb_prop in Hx, Hy. destruct Hx as [Hx1 Hx2], Hy as [Hy1 Hy2].
  destruct (F.lt y x) eqn:E; [|reflexivity].
  destruct (lt_neg_trans y v x E) as [H|H]; rewrite H in *; discriminate.
Qed.

End FloatOrder.

(** ** The top-K selection *)

Section TopK.

Lemma filter_map_comm {A B : Type} (f : A -> B) (p : B -> bool) (l : list A) :
  filter p (map f l) = map f (filter (fun a => p (f a)) l).
Proof.
  induction l as [|x l IH]; [reflexivity|].
  simpl. destruct (p (f x)); simpl; now rewrite IH.
Qed.

Lemma nlargest_records (df : DataFrame) (mktcap : list float64) :
  map (project df) (Pd.nlargest K snd (combine (rows df) mktcap))
  = firstn K (ranking df mktcap
              ++ filter (fun r => negb (has_mktcap r)) (records df mktcap)).
Proof.
  unfold Pd.nlargest, ranking, records.
  rewrite <- firstn_map, map_app. f_equal. f_equal.
  - rewrite (map_stable_sort (project df) _ desc) by reflexivity.
    f_equal. now rewrite filter_map_comm.
  - rewrite filter_map_comm. f_equal. apply filter_ext.
    intros [r x]. unfold has_mktcap, F.notna. simpl.
    now rewrite negb_involutive.
Qed.

Lemma top_stocks_value (df : DataFrame) (mktcap : list float64)
    (top : list Ranked) :
  top_stocks df mktcap = inr top ->
  top = firstn K (ranking df mktcap
                  ++ filter (fun r => negb (has_mktcap r)) (records df mktcap)).
Proof.
  unfold top_stocks.
  destruct (filter _ _); [|discriminate].
  intros [= <-]. apply nlargest_records.
Qed.

Lemma ranking_perm (df : DataFrame) (mktcap : list float64) :
  Permutation (ranking df mktcap) (filter has_mktcap (records df mktcap)).
Proof. apply stable_sort_perm. Qed.

Lemma ranking_descending (df : DataFrame) (mktcap : list float64) :
  StronglySorted (fun a b => F.lt (MktCap a) (MktCap b) = false)
    (ranking df mktcap).
Proof.
  assert (Hirr : forall a, desc a a = false) by (intros a; apply lt_irrefl).
  assert (Htr : forall a b c,
             desc a b = true -> desc b c = true -> desc a c = true).
  { unfold desc. intros a b c H1 H2. now apply lt_trans with (MktCap b). }
  assert (Hnt : forall a b c,
             desc a c = true -> desc a b = true \/ desc b c = true).
  { unfold desc. intros a b c H.
    destruct (lt_neg_trans _ (MktCap b) _ H); auto. }
  eapply StronglySorted_weaken;
    [|apply (stable_sort_lex desc Hirr Htr Hnt (fun _ _ => True))].
  - intros a b _ _ H. apply (lex_not_after desc Hirr Htr _ a b H).
  - clear. induction (filter has_mktcap _) as [|x l IH]; constructor;
      [assumption|]. now apply Forall_forall.
Qed.

Lemma ranking_stable (df : DataFrame) (mktcap : list float64) (v : float64) :
  filter (fun r => F.same (MktCap r) v) (ranking df mktcap)
  = filter (fun r => F.same (MktCap r) v)
      (filter has_mktcap (records df mktcap)).
Proof.
  apply stable_sort_filter. intros a b Ha Hb. unfold desc.
  now apply same_not_lt with v.
Qed.

Lemma ranking_has_mktcap (df : DataFrame) (mktcap : list float64) :
  Forall (fun r => has_mktcap r = true) (ranking df mktcap).
Proof.
  apply (Permutation_Forall (Permutation_sym (ranking_perm df mktcap))).
  apply Forall_forall. intros r Hr. now apply filter_In in Hr.
Qed.

(** In a prefix of "good rows, then bad rows" no bad row comes before a
    good one. *)
Lemma good_rows_first {A : Type} (good : A -> bool) (a b : list A) (n : nat)
    (pre post : list A) (x : A) :
  Forall (fun r => good r = true) a ->
  Forall (fun r => good r = false) b ->
  firstn n (a ++ b) = pre ++ x :: post ->
  good x = true ->
  Forall (fun r => good r = true) pre.
Proof.
  intros Ha Hb E Hx. rewrite firstn_app in E.
  assert (Ha' : Forall (fun r => good r = true) (firstn n a)).
  { rewrite <- (firstn_skipn n a) in Ha. now apply Forall_app in Ha. }
  assert (Hb' : Forall (fun r => good r = false)
                  (firstn (n - List.length a) b)).
  { rewrite <- (firstn_skipn (n - List.length a) b) in Hb.
    now apply Forall_app in Hb. }
  apply app_eq_app in E. destruct E as [l [[E1 E2]|[E1 E2]]].
  - rewrite E1 in Ha'. now apply Forall_app in Ha'.
  - exfalso. rewrite E2 in Hb'. apply Forall_app in Hb'.
    destruct Hb' as [_ Hb']. inversion Hb' as [|? ? Hx' _]. congruence.
Qed.

End TopK.

(** C6, as the code has it.  [top_stocks] is the first K = 15 rows of: the
    records with a market cap by descending market cap, records of equal
    market cap in input order, followed by the records without a market
    cap in input order.  So a null record never precedes a non-null one,
    and the ranking is free of null records exactly when at least K
    records have a market cap; with fewer, null records fill the
    remaining rows. *)
Theorem top_stocks_spec
    (df : DataFrame) (mktcap : list float64) (top : list Ranked) :
  top_stocks df mktcap = inr top ->
  let all := records df mktcap in
  exists ranked,
    top = firstn K (ranked ++ filter (fun r => negb (has_mktcap r)) all)
    /\ Permutation ranked (filter has_mktcap all)
    /\ StronglySorted (fun a b => F.lt (MktCap a) (MktCap b) = false) ranked
    /\ (forall v,
          filter (fun r => F.same (MktCap r) v) ranked
          = filter (fun r => F.same (MktCap r) v) (filter has_mktcap all))
    /\ List.length top = Nat.min K (List.length all)
    /\ (forall pre x post,
          top = pre ++ x :: post -> has_mktcap x = true ->
          Forall (fun r => has_mktcap r = true) pre)
    /\ (K <= List.length ranked ->
        top = firstn K ranked /\ Forall (fun r => has_mktcap r = true) top)
    /\ (List.length ranked < K ->
        top = ranked
              ++ firstn (K - List.length ranked)
                   (filter (fun r => negb (has_mktcap r)) all)).
Proof.
  intros Htop all. exists (ranking df mktcap).
  pose proof (top_stocks_value _ _ _ Htop) as E. fold all in E.
  pose proof (ranking_has_mktcap df mktcap) as Hgood.
  split; [exact E|].
  split; [apply ranking_perm|].
  split; [apply ranking_descending|].
  split; [apply ranking_stable|].
  split.
  { rewrite E, length_firstn, length_app.
    rewrite (Permutation_length (ranking_perm df mktcap)).
    fold all. now rewrite filter_length. }
  split.
  { intros pre x post Hsplit Hx. rewrite E in Hsplit.
    apply (good_rows_first has_mktcap _ _ _ _ _ _ Hgood) with (2 := Hsplit);
      [|assumption].
    apply Forall_forall. intros r Hr. apply filter_In in Hr.
    now apply negb_true_iff. }
  split; intros Hlen; rewrite E, firstn_app.
  - replace (K - List.length (ranking df mktcap)) with 0 by lia.
    simpl. rewrite app_nil_r. split; [reflexivity|].
    rewrite <- (firstn_skipn K (ranking df mktcap)) in Hgood.
    now apply Forall_app in Hgood.
  - rewrite firstn_all2 by lia. reflexivity.
Qed.

Lemma top_stocks_spec_witness :
  top_stocks two_df [Fin 100; NaN]
  = inr [ {| Ticker := CStr "AAA"; Name := CStr "Alpha"; MktCap := Fin 100;
             SectorCode := CStr "A" |};
          {| Ticker := CStr "BBB"; Name := CStr "Beta"; MktCap := NaN;
             SectorCode := CNaN |} ]
  /\ exists ranked,
       Permutation ranked (filter has_mktcap (records two_df [Fin 100; NaN]))
       /\ StronglySorted (fun a b => F.lt (MktCap a) (MktCap b) = false) ranked.
Proof.
  split; [reflexivity|].
  destruct (top_stocks_spec two_df [Fin 100; NaN] _ eq_refl)
    as (ranked & _ & Hp & Hs & _).
  exists ranked. split; assumption.
Defined.

(** C6 as stated fails: of two records, one without a market cap, both are
    in the ranking. *)
Lemma top_stocks_excludes_null_counterexample :
  ~ (forall df mktcap top,
       mktcap_column df = inr mktcap ->
       top_stocks df mktcap = inr top ->
       Forall (fun r => has_mktcap r = true) top).
Proof.
  intros H.
  specialize (H two_df [Fin 100; NaN] _ eq_refl eq_refl).
  inversion H as [|? ? _ H']. inversion H' as [|? ? Hnull _].
  discriminate Hnull.
Qed.

(** ** Rounding to float64 on whole numbers *)

Section Rounding.
Local Open Scope Z_scope.





Lemma of_Z_not_nan (z : Z) : F.of_Z z <> NaN.
Proof. apply round_not_nan. Qed.

End Rounding.

(** ** Sums of whole numbers are exact *)

Section ExactSums.
Local Open Scope Z_scope.








End ExactSums.

(** ** The median *)

Section Median.





End Median.

(** ** The total of an int64 column *)

Section Int64.









End Int64.




(** ** The run of the script *)

Section Run.

Lemma existsb_eqb_In (n : string) (cols : list string) :
  existsb (String.eqb n) cols = true <-> In n cols.
Proof.
  rewrite existsb_exists. split.
  - intros (x & Hx & E). apply String.eqb_eq in E. now subst.
  - intros H. exists n. split; [assumption | apply String.eqb_refl].
Qed.

Lemma getitem_present (df : DataFrame) (name : string) :
  In name (columns df) -> exists col, Pd.getitem df name = inr col.
Proof.
  intros H. unfold Pd.getitem.
  destruct (Pd.index_of name (columns df)) as [i|] eqn:E; [eauto|].
  apply index_of_none in E. contradiction.
Qed.

Lemma getitem_absent (df : DataFrame) (name : string) :
  ~ In name (columns df) -> Pd.getitem df name = inl (KeyError [name]).
Proof.
  intros H. unfold Pd.getitem.
  apply index_of_none in H. now rewrite H.
Qed.

(** Follow the script through the statements that can raise. *)
Ltac run_through Hl Hm Hs Ht :=
  unfold run, main, bind, lift, summary_statistics;
  rewrite Hm; cbv beta iota zeta;
  rewrite Hl; cbv beta iota zeta;
  rewrite Hs; cbv beta iota zeta;
  rewrite Ht; reflexivity.

Lemma run_reader_error (lines : list string) (e : exn) :
  run lines (inl e) = ([], inl e).
Proof. reflexivity. Qed.

Lemma run_no_mktcap (lines : list string) (df0 : DataFrame) (e : exn) :
  mktcap_column (drop_unnamed df0) = inl e ->
  run lines (inr df0) = ([], inl e).
Proof.
  intros H. unfold run, main, bind, lift. now rewrite H.
Qed.

(** Line 53 with no title: the box of line 51 exists, the assignment
    raises. *)
Lemma run_no_title (lines : list string) (df0 : DataFrame)
    (xs : list float64) :
  mktcap_column (drop_unnamed df0) = inr xs ->
  title (metadata lines) = None ->
  run lines (inr df0) = ([[TextBox None]], inl AttributeError).
Proof.
  intros Hm Hl. unfold run, main, bind, lift. rewrite Hm. cbv beta iota zeta.
  rewrite Hl. reflexivity.
Qed.

Lemma run_no_sector (lines : list string) (df0 : DataFrame)
    (xs : list float64) (t : string) (e : exn) :
  mktcap_column (drop_unnamed df0) = inr xs ->
  title (metadata lines) = Some t ->
  Pd.getitem (drop_unnamed df0) "SectorCode" = inl e ->
  run lines (inr df0)
  = ([title_slide (metadata lines); [summary_heading]], inl e).
Proof.
  intros Hm Hl Hs. unfold run, main, bind, lift, summary_statistics, title_slide.
  rewrite Hm. cbv beta iota zeta. rewrite Hl. cbv beta iota zeta.
  rewrite Hs. reflexivity.
Qed.

Lemma run_no_columns (lines : list string) (df0 : DataFrame)
    (xs : list float64) (t : string) (sectors : list cell) (e : exn) :
  let df := drop_unnamed df0 in
  mktcap_column df = inr xs ->
  title (metadata lines) = Some t ->
  Pd.getitem df "SectorCode" = inr sectors ->
  top_stocks df xs = inl e ->
  exists st,
    summary_statistics df xs = inr st
    /\ run lines (inr df0)
       = ([title_slide (metadata lines); summary_slide st;
           breakdown_slide sectors (Pd.len df); [table_heading]], inl e).
Proof.
  intros df Hm Hl Hs Ht. subst df. eexists. split.
  - unfold summary_statistics. rewrite Hs. reflexivity.
  - unfold title_slide. run_through Hl Hm Hs Ht.
Qed.

Lemma run_completes (lines : list string) (df0 : DataFrame)
    (xs : list float64) (t : string) (sectors : list cell)
    (top : list Ranked) :
  let df := drop_unnamed df0 in
  mktcap_column df = inr xs ->
  title (metadata lines) = Some t ->
  Pd.getitem df "SectorCode" = inr sectors ->
  top_stocks df xs = inr top ->
  exists st,
    summary_statistics df xs = inr st
    /\ run lines (inr df0)
       = ([title_slide (metadata lines); summary_slide st;
           breakdown_slide sectors (Pd.len df); table_slide top], inr tt).
Proof.
  intros df Hm Hl Hs Ht. subst df. eexists. split.
  - unfold summary_statistics. rewrite Hs. reflexivity.
  - unfold title_slide. run_through Hl Hm Hs Ht.
Qed.

Lemma mktcap_column_present (df : DataFrame) :
  In "MktCap" (columns df) -> exists xs, mktcap_column df = inr xs.
Proof.
  intros H. destruct (getitem_present df _ H) as [col E].
  unfold mktcap_column. rewrite E. eauto.
Qed.

Lemma mktcap_column_absent (df : DataFrame) :
  ~ In "MktCap" (columns df) ->
  mktcap_column df = inl (KeyError ["MktCap"]).
Proof.
  intros H. unfold mktcap_column. now rewrite (getitem_absent df _ H).
Qed.

(** The labels [top_stocks] misses are those of the four that are not
    columns. *)
Lemma top_stocks_missing (df : DataFrame) (xs : list float64) :
  In "MktCap" (columns df) -> In "SectorCode" (columns df) ->
  ~ In "Ticker" (columns df) \/ ~ In "Name" (columns df) ->
  exists missing,
    top_stocks df xs = inl (KeyError missing)
    /\ missing <> []
    /\ forall n, In n missing <->
                 (n = "Ticker" \/ n = "Name") /\ ~ In n (columns df).
Proof.
  intros Hm Hs Hmiss. unfold top_stocks.
  set (absent := fun n => negb (existsb (String.eqb n) (columns df))).
  assert (Habs : forall n, absent n = true <-> ~ In n (columns df)).
  { intros n. unfold absent. rewrite negb_true_iff, <- not_true_iff_false.
    now rewrite existsb_eqb_In. }
  assert (Hin : forall n,
            In n (filter absent ["Ticker"; "Name"; "MktCap"; "SectorCode"])
            <-> (n = "Ticker" \/ n = "Name") /\ ~ In n (columns df)).
  { intros n. rewrite filter_In, Habs. simpl.
    intuition (subst; try contradiction; auto). }
  destruct (filter absent _) as [|m ms] eqn:E.
  - exfalso. destruct Hmiss as [H|H].
    + apply (proj2 (Hin "Ticker")). auto.
    + apply (proj2 (Hin "Name")). auto.
  - exists (m :: ms). split; [reflexivity|]. split; [discriminate | exact Hin].
Qed.

Lemma top_stocks_present (df : DataFrame) (xs : list float64) :
  Forall (fun n => In n (columns df)) required_columns ->
  exists top, top_stocks df xs = inr top.
Proof.
  intros H. unfold top_stocks, required_columns in *.
  inversion H as [|? ? Ht H']; subst. inversion H' as [|? ? Hn H'']; subst.
  inversion H'' as [|? ? Hm H''']; subst. inversion H''' as [|? ? Hs _]; subst.
  apply existsb_eqb_In in Ht, Hn, Hm, Hs.
  cbn [filter]. rewrite Ht, Hn, Hm, Hs. cbn [negb]. eauto.
Qed.

End Run.

(** C1, as the code has it.  The script validates nothing.  A required
    column that is missing surfaces as the [KeyError] of the first
    statement that reads it: [MktCap] before any slide exists; and, in a
    run whose first line gave a title, [SectorCode] once the title slide
    and the heading of the summary slide are built, [Ticker] or [Name]
    once three slides and the heading of the fourth are built.  Whenever
    one of the four is missing nothing is saved.  With the four columns
    present and a title, the script runs to the end and saves four slides,
    whatever the number of data rows, zero included. *)
Theorem missing_columns_and_empty_block (lines : list string) (df0 : DataFrame) :
  let df := drop_unnamed df0 in
  (~ In "MktCap" (columns df) ->
   run lines (inr df0) = ([], inl (KeyError ["MktCap"])))
  /\ (forall t, title (metadata lines) = Some t ->
      (In "MktCap" (columns df) -> ~ In "SectorCode" (columns df) ->
       run lines (inr df0)
       = ([title_slide (metadata lines); [summary_heading]],
          inl (KeyError ["SectorCode"])))
      /\ (In "MktCap" (columns df) -> In "SectorCode" (columns df) ->
          ~ In "Ticker" (columns df) \/ ~ In "Name" (columns df) ->
          exists st sectors missing,
            run lines (inr df0)
            = ([title_slide (metadata lines); summary_slide st;
                breakdown_slide sectors (Pd.len df); [table_heading]],
               inl (KeyError missing))
            /\ missing <> []
            /\ forall n, In n missing <->
                         (n = "Ticker" \/ n = "Name") /\ ~ In n (columns df))
      /\ (Forall (fun n => In n (columns df)) required_columns ->
          exists prs,
            run lines (inr df0) = (prs, inr tt)
            /\ List.length prs = 4
            /\ saved lines (inr df0) = Some prs))
  /\ (~ Forall (fun n => In n (columns df)) required_columns ->
      saved lines (inr df0) = None).
Proof.
  intros df.
  assert (C1 : ~ In "MktCap" (columns df) ->
               run lines (inr df0) = ([], inl (KeyError ["MktCap"]))).
  { intros H. apply run_no_mktcap. now apply mktcap_column_absent. }
  assert (C2 : forall t, title (metadata lines) = Some t ->
               In "MktCap" (columns df) -> ~ In "SectorCode" (columns df) ->
               run lines (inr df0)
               = ([title_slide (metadata lines); [summary_heading]],
                  inl (KeyError ["SectorCode"]))).
  { intros t Hl Hm Hs. destruct (mktcap_column_present df Hm) as [xs Hx].
    apply (run_no_sector lines df0 xs t); [exact Hx|exact Hl|].
    now apply getitem_absent. }
  assert (C3 : forall t, title (metadata lines) = Some t ->
               In "MktCap" (columns df) -> In "SectorCode" (columns df) ->
               ~ In "Ticker" (columns df) \/ ~ In "Name" (columns df) ->
               exists st sectors missing,
                 run lines (inr df0)
                 = ([title_slide (metadata lines); summary_slide st;
                     breakdown_slide sectors (Pd.len df); [table_heading]],
                    inl (KeyError missing))
                 /\ missing <> []
                 /\ forall n, In n missing <->
                      (n = "Ticker" \/ n = "Name") /\ ~ In n (columns df)).
  { intros t Hl Hm Hs Hmiss. destruct (mktcap_column_present df Hm) as [xs Hx].
    destruct (getitem_present df _ Hs) as [sectors Hsec].
    destruct (top_stocks_missing df xs Hm Hs Hmiss) as (missing & Ht & Hne & Hin).
    destruct (run_no_columns lines df0 xs t sectors _ Hx Hl Hsec Ht)
      as (st & _ & Hrun).
    exists st, sectors, missing. auto. }
  split; [exact C1|]. split.
  - intros t Hl. split; [exact (C2 t Hl)|]. split; [exact (C3 t Hl)|].
    intros Hall.
    assert (Hm : In "MktCap" (columns df)).
    { apply (proj1 (Forall_forall _ _) Hall). simpl. auto. }
    assert (Hs : In "SectorCode" (columns df)).
    { apply (proj1 (Forall_forall _ _) Hall). simpl. auto. }
    destruct (mktcap_column_present df Hm) as [xs Hx].
    destruct (getitem_present df _ Hs) as [sectors Hsec].
    destruct (top_stocks_present df xs Hall) as [top Ht].
    destruct (run_completes lines df0 xs t sectors top Hx Hl Hsec Ht)
      as (st & _ & Hrun).
    eexists. split; [exact Hrun|]. split; [reflexivity|].
    unfold saved. now rewrite Hrun.
  - intros Hnot. unfold saved.
    destruct (in_dec string_dec "MktCap" (columns df)) as [Hm|Hm];
      [|now rewrite (C1 Hm)].
    destruct (title (metadata lines)) as [t|] eqn:Hl.
    2:{ destruct (mktcap_column_present df Hm) as [xs Hx].
        now rewrite (run_no_title lines df0 xs Hx Hl). }
    destruct (in_dec string_dec "SectorCode" (columns df)) as [Hs|Hs];
      [|now rewrite (C2 t eq_refl Hm Hs)].
    destruct (in_dec string_dec "Ticker" (columns df)) as [Ht|Ht].
    + destruct (in_dec string_dec "Name" (columns df)) as [Hn|Hn].
      * exfalso. apply Hnot. unfold required_columns. repeat constructor; assumption.
      * destruct (C3 t eq_refl Hm Hs (or_intror Hn)) as (st & sec & mis & Hrun & _).
        now rewrite Hrun.
    + destruct (C3 t eq_refl Hm Hs (or_introl Ht)) as (st & sec & mis & Hrun & _).
      now rewrite Hrun.
Qed.

Lemma missing_columns_and_empty_block_witness :
  title (metadata preamble) = Some "Universe"
  /\ ~ In "SectorCode" (columns (drop_unnamed no_sector_df))
  /\ run preamble (inr no_sector_df)
     = ([title_slide (metadata preamble); [summary_heading]],
        inl (KeyError ["SectorCode"]))
  /\ exists prs,
       run preamble (inr empty_df) = (prs, inr tt)
       /\ List.length prs = 4
       /\ saved preamble (inr empty_df) = Some prs.
Proof.
  assert (Hl : title (metadata preamble) = Some "Universe") by reflexivity.
  assert (Hs : ~ In "SectorCode" (columns (drop_unnamed no_sector_df))).
  { cbv. intuition discriminate. }
  assert (Hm : In "MktCap" (columns (drop_unnamed no_sector_df))).
  { cbv. auto. }
  assert (Hall : Forall (fun n => In n (columns (drop_unnamed empty_df)))
                   required_columns).
  { unfold required_columns. repeat constructor; cbv; tauto. }
  split; [exact Hl|]. split; [exact Hs|]. split.
  - exact (proj1 (proj1 (proj2
             (missing_columns_and_empty_block preamble no_sector_df)) _ Hl)
             Hm Hs).
  - exact (proj2 (proj2 (proj1 (proj2
             (missing_columns_and_empty_block preamble empty_df)) _ Hl)) Hall).
Defined.

(** C1 as stated fails: a block with the four columns and no data row is
    processed to the end, and four slides are saved. *)
Lemma empty_block_not_fatal_counterexample :
  rows (drop_unnamed empty_df) = []
  /\ run preamble (inr empty_df)
     = ([title_slide (metadata preamble);
         summary_slide no_data_statistics;
         breakdown_slide [] 0;
         table_slide []], inr tt)
  /\ ~ (forall lines df0,
          rows (drop_unnamed df0) = []
          \/ ~ Forall (fun n => In n (columns (drop_unnamed df0)))
                 required_columns ->
          exists e, run lines (inr df0) = ([], inl e)).
Proof.
  split; [reflexivity|]. split; [reflexivity|].
  intros H. destruct (H preamble empty_df (or_introl eq_refl)) as [e He].
  discriminate He.
Qed.

(** C4, as the code has it.  With no record the total is reported as
    zero while the average and the median are NaN, shown as [nan];
    computing and formatting the figures raises nothing. *)
Theorem no_records_statistics (df : DataFrame) :
  rows df = [] ->
  In "MktCap" (columns df) ->
  In "SectorCode" (columns df) ->
  mktcap_column df = inr []
  /\ summary_statistics df [] = inr no_data_statistics
  /\ Py.strip (stats_text no_data_statistics) = no_data_text
  /\ shown (total_mktcap no_data_statistics) = "0.00"
  /\ shown (avg_mktcap no_data_statistics) = "nan"
  /\ shown (median_mktcap no_data_statistics) = "nan".
Proof.
  intros Hrows Hm Hs.
  destruct (getitem_present df _ Hm) as [raw Hraw].
  destruct (getitem_present df _ Hs) as [sectors Hsec].
  pose proof (getitem_length _ _ _ Hraw) as Lraw.
  pose proof (getitem_length _ _ _ Hsec) as Lsec.
  unfold Pd.len in *. rewrite Hrows in *. simpl in *.
  apply length_zero_iff_nil in Lraw, Lsec. subst raw sectors.
  split; [unfold mktcap_column; now rewrite Hraw|].
  split; [|repeat split].
  unfold summary_statistics, mktcap_sum, mktcap_floats, Pd.len.
  rewrite Hsec, Hraw, Hrows. reflexivity.
Qed.

Lemma no_records_statistics_witness :
  rows empty_df = []
  /\ summary_statistics empty_df [] = inr no_data_statistics.
Proof.
  split; [reflexivity|].
  apply (no_records_statistics empty_df eq_refl); cbv; tauto.
Defined.

(** C4 as stated fails: without records the three figures are neither all
    zero nor all the same marker. *)
Lemma no_records_consistent_counterexample :
  Pd.len empty_df = 0
  /\ mktcap_column empty_df = inr []
  /\ summary_statistics empty_df [] = inr no_data_statistics
  /\ ~ consistent_no_data no_data_statistics
  /\ ~ (forall df mktcap st,
          Pd.len df = 0 ->
          mktcap_column df = inr mktcap ->
          summary_statistics df mktcap = inr st ->
          consistent_no_data st).
Proof.
  assert (H : ~ consistent_no_data no_data_statistics).
  { intros [(_ & H & _)|(marker & H1 & H2 & _)].
    - discriminate H.
    - rewrite <- H2 in H1. discriminate H1. }
  repeat split; try assumption.
  intros Hall. apply H.
  exact (Hall empty_df [] _ eq_refl eq_refl eq_refl).
Qed.

(** ** Absent metadata *)

Section AbsentMetadata.

Lemma absent_field_none (lines : list string) (i : nat) :
  nth_error lines i = None
  \/ (exists line,
        nth_error lines i = Some line /\ Forall blank (Py.split "," line)) ->
  metadata_field lines i = None.
Proof.
  unfold metadata_field. intros [H|(line & H & Hb)].
  - apply nth_error_None in H.
    destruct (Nat.ltb_spec i (List.length lines)); [lia | reflexivity].
  - destruct (i <? List.length lines); [|reflexivity].
    rewrite (nth_error_nth _ _ _ H). now apply clean_blank_line.
Qed.

Lemma run_first_slide (lines : list string) (df0 : DataFrame)
    (xs : list float64) (t : string) :
  mktcap_column (drop_unnamed df0) = inr xs ->
  title (metadata lines) = Some t ->
  exists rest, fst (run lines (inr df0)) = title_slide (metadata lines) :: rest.
Proof.
  intros Hx Hl.
  destruct (Pd.getitem (drop_unnamed df0) "SectorCode") as [e|sectors] eqn:Hs.
  - rewrite (run_no_sector _ _ _ _ _ Hx Hl Hs). simpl. eauto.
  - destruct (top_stocks (drop_unnamed df0) xs) as [e|top] eqn:Ht.
    + destruct (run_no_columns lines _ _ _ _ _ Hx Hl Hs Ht) as (st & _ & ->).
      simpl. eauto.
    + destruct (run_completes lines _ _ _ _ _ Hx Hl Hs Ht) as (st & _ & ->).
      simpl. eauto.
Qed.

End AbsentMetadata.

(** C3, the code against the claim.  Extracting the metadata raises
    nothing: a field whose line is absent, or has only blank tokens, is
    [None].  The report then does not go on as the claim has it.  With the
    title absent the assignment of line 53 raises [AttributeError] when
    only the empty title box exists, and nothing is saved.  With a title,
    the date box holds ["Analysis Date: "] followed by the date field,
    which reads ["Analysis Date: None"] when the field is absent: no
    placeholder is put in. *)
Theorem absent_metadata_aborts_or_prints_none
    (lines : list string) (df0 : DataFrame) (xs : list float64) :
  mktcap_column (drop_unnamed df0) = inr xs ->
  (forall i,
     nth_error lines i = None
     \/ (exists line,
           nth_error lines i = Some line /\ Forall blank (Py.split "," line)) ->
     metadata_field lines i = None)
  /\ (title (metadata lines) = None ->
      run lines (inr df0) = ([[TextBox None]], inl AttributeError)
      /\ saved lines (inr df0) = None)
  /\ (forall t, title (metadata lines) = Some t ->
      exists rest,
        fst (run lines (inr df0))
        = [TextBox (Some t);
           TextBox (Some ("Analysis Date: "
                          ++ match date (metadata lines) with
                             | Some d => d
                             | None => "None"
                             end)%string)] :: rest).
Proof.
  intros Hx. split; [apply absent_field_none|]. split.
  - intros Hl. pose proof (run_no_title lines df0 xs Hx Hl) as Hrun.
    split; [exact Hrun|]. unfold saved. now rewrite Hrun.
  - intros t Hl. destruct (run_first_slide lines df0 xs t Hx Hl) as [rest Hr].
    exists rest. rewrite Hr. unfold title_slide. now rewrite Hl.
Qed.

Lemma absent_metadata_aborts_or_prints_none_witness :
  mktcap_column (drop_unnamed two_df) = inr [Fin 100; NaN]
  /\ title (metadata no_title_preamble) = None
  /\ run no_title_preamble (inr two_df) = ([[TextBox None]], inl AttributeError)
  /\ saved no_title_preamble (inr two_df) = None.
Proof.
  split; [reflexivity|]. split; [reflexivity|].
  exact (proj1 (proj2 (absent_metadata_aborts_or_prints_none
                         no_title_preamble two_df [Fin 100; NaN] eq_refl))
           eq_refl).
Defined.

(** A date line of blank tokens: the date box reads
    ["Analysis Date: None"]. *)
Example absent_date_prints_none :
  date (metadata no_date_preamble) = None
  /\ exists rest,
       run no_date_preamble (inr two_df)
       = ([TextBox (Some "Universe"); TextBox (Some "Analysis Date: None")]
          :: rest, inr tt).
Proof.
  split; [reflexivity|]. eexists. vm_compute. reflexivity.
Qed.

(** ** Worked examples *)

(** Five records with market caps 100, null, 300, 200, 50 and sectors
    A, B, A, A, B. *)
Example five_row_statistics :
  mktcap_column (drop_unnamed five_df)
  = inr [Fin 100; NaN; Fin 300; Fin 200; Fin 50]
  /\ summary_statistics (drop_unnamed five_df)
       [Fin 100; NaN; Fin 300; Fin 200; Fin 50]
     = inr {| total_stocks := 5; avg_mktcap := Fin (325 # 2);
              median_mktcap := Fin 150; total_mktcap := Fin 650;
              num_sectors := 2 |}.
Proof. split; vm_compute; reflexivity. Qed.

Example five_row_report :
  run preamble (inr five_df)
  = ([ [TextBox (Some "Universe"); TextBox (Some "Analysis Date: 2024-01-31")];
       [TextBox (Some "Universe Summary Statistics");
        TextBox (Some ("Total Number of Stocks: 5" ++ NL ++ NL
                       ++ "Total Market Cap: $650.00M" ++ NL ++ NL
                       ++ "Average Market Cap: $162.50M" ++ NL ++ NL
                       ++ "Median Market Cap: $150.00M" ++ NL ++ NL
                       ++ "Number of Sectors: 2")%string)];
       [TextBox (Some "Sector Breakdown");
        TextBox (Some ("Stock Count by Sector:" ++ NL ++ NL
                       ++ "A: 3 (60.0%)" ++ NL
                       ++ "B: 2 (40.0%)" ++ NL)%string)];
       [TextBox (Some "Top 15 Stocks by Market Cap");
        Table [ ["Ticker"; "Name"; "Market Cap ($M)"; "Sector"];
                ["CCC"; "Gamma"; "$300.00"; "A"];
                ["DDD"; "Delta"; "$200.00"; "A"];
                ["AAA"; "Alpha"; "$100.00"; "A"];
                ["EEE"; "Epsilon"; "$50.00"; "B"];
                ["BBB"; "Beta"; "$nan"; "B"] ] ] ],
      inr tt).
Proof. vm_compute. reflexivity. Qed.

Example coercion_samples :
  coerce_mktcap (CStr " -1,0.5e2 ") = Fin (-1050)
  /\ coerce_mktcap (CStr "1.5e-3") = F.round (15 # 10000)
  /\ coerce_mktcap (CStr "1.25e-1") = Fin (1 # 8)
  /\ coerce_mktcap (CStr "1e400") = Inf false
  /\ coerce_mktcap (CStr "-1e-400") = NegZero
  /\ coerce_mktcap (CStr "5.") = Fin 5
  /\ coerce_mktcap (CStr "-Infinity") = Inf true
  /\ coerce_mktcap (CStr "1e") = NaN
  /\ coerce_mktcap (CStr ".") = NaN
  /\ coerce_mktcap (CStr "12 345") = NaN
  /\ coerce_mktcap CNaN = NaN.
Proof. repeat split; vm_compute; reflexivity. Qed.

Example formatting_samples :
  Fmt.fixed true 2 (Fin (123456789 # 100)) = "1,234,567.89"
  /\ Fmt.fixed true 2 (Fin (1 # 8)) = "0.12"
  /\ Fmt.fixed true 2 (Fin (3 # 8)) = "0.38"
  /\ Fmt.fixed true 2 (Fin (999999 # 1000)) = "1,000.00"
  /\ Fmt.fixed false 1 (Fin (-(3 # 20))) = "-0.1"
  /\ Fmt.fixed false 1 (Fin (1 # 4)) = "0.2"
  /\ Fmt.fixed true 2 (whole 9223372036854775807)
     = "9,223,372,036,854,775,808.00"
  /\ Fmt.fixed true 2 NaN = "nan"
  /\ Fmt.fixed true 2 NegZero = "-0.00"
  /\ Fmt.int_commas 4321 = "4,321"
  /\ Fmt.int_commas 0 = "0".
Proof. repeat split; vm_compute; reflexivity. Qed.

(** * Further properties of the script *)

(** ** The metadata micro-parser *)

Section MetadataMore.

Lemma string_app_assoc (a b c : string) :
  ((a ++ b) ++ c = a ++ (b ++ c))%string.
Proof. induction a as [|x a IH]; simpl; [reflexivity | now rewrite IH]. Qed.

Lemma string_app_nil_r (a : string) : (a ++ "")%string = a.
Proof. induction a as [|x a IH]; simpl; [reflexivity | now rewrite IH]. Qed.

Lemma strip_app_blank (tok w : string) :
  blank w -> Py.strip (tok ++ w) = Py.strip tok.
Proof.
  intros Hw. apply trimmed_strip.
  destruct (strip_trimmed tok) as (l & r & E & Hl & Hr & Ht).
  exists l, (r ++ w)%string. repeat split; try assumption.
  - rewrite E at 1. now rewrite !string_app_assoc.
  - now apply blank_app.
Qed.

Lemma strip_fixed (t : string) : tight t -> Py.strip t = t.
Proof.
  intros Ht. apply trimmed_strip. exists EmptyString, EmptyString.
  repeat split; try constructor; try assumption.
  simpl. now rewrite string_app_nil_r.
Qed.

(** A separator-free tail stays in the last piece. *)
Lemma split_app_tail (sep : ascii) (s w : string) :
  ~ In sep (list_ascii_of_string w) ->
  Py.split sep (s ++ w)
  = removelast (Py.split sep s)
    ++ [(last (Py.split sep s) EmptyString ++ w)%string].
Proof.
  intros Hw. induction s as [|c s IH].
  - simpl. now apply split_piece.
  - simpl. pose proof (split_not_nil sep s) as Hne.
    destruct (Ascii.eqb c sep).
    + rewrite IH. destruct (Py.split sep s); [congruence | reflexivity].
    + rewrite IH. destruct (Py.split sep s) as [|h t]; [congruence|].
      destruct t as [|h' t]; reflexivity.
Qed.

Lemma clean_app_blank (line w : string) :
  blank w -> comma_free w ->
  clean_metadata_line (line ++ w) = clean_metadata_line line.
Proof.
  intros Hb Hc. unfold clean_metadata_line.
  rewrite (split_app_tail _ _ _ Hc).
  pose proof (split_not_nil "," line) as Hne.
  rewrite (app_removelast_last EmptyString Hne) at 3.
  rewrite !map_app. simpl. now rewrite strip_app_blank.
Qed.

Lemma rstrip_newlines_tail (s : string) :
  exists w,
    s = (rstrip_newlines s ++ w)%string /\ blank w /\ comma_free w.
Proof.
  induction s as [|c s (w & E & Hb & Hc)].
  - exists EmptyString. repeat split; [constructor | intros []].
  - simpl. destruct (rstrip_newlines s) as [|d r] eqn:Hr.
    + simpl in E. subst w. destruct (Ascii.eqb_spec c "010") as [->|Hn].
      * exists (String "010" s). repeat split.
        -- constructor; [reflexivity | assumption].
        -- intros [H|H]; [discriminate | now apply Hc].
      * exists s. repeat split; assumption.
    + exists w. repeat split; try assumption.
      simpl. simpl in E. now rewrite <- E.
Qed.

Lemma clean_rstrip_newlines (raw : string) :
  clean_metadata_line (rstrip_newlines raw) = clean_metadata_line raw.
Proof.
  destruct (rstrip_newlines_tail raw) as (w & E & Hb & Hc).
  rewrite E at 2. symmetry. now apply clean_app_blank.
Qed.

Lemma metadata_field_read_lines (raw : list string) (i : nat) :
  metadata_field (read_lines raw) i = metadata_field raw i.
Proof.
  unfold metadata_field, read_lines. rewrite length_map.
  destruct (i <? List.length raw); [|reflexivity].
  change EmptyString with (rstrip_newlines EmptyString) at 1.
  rewrite map_nth. apply clean_rstrip_newlines.
Qed.

Lemma comma_free_app (a b : string) :
  comma_free (a ++ b) -> comma_free a /\ comma_free b.
Proof.
  unfold comma_free. rewrite chars_app, in_app_iff. tauto.
Qed.

End MetadataMore.

(** X1. A field that [clean_metadata_line] returns is never empty, has no
    whitespace at either end and no comma, and is left as it is when the
    function is applied to it again. *)
Theorem clean_metadata_line_result (line t : string) :
  clean_metadata_line line = Some t ->
  t <> EmptyString /\ tight t /\ comma_free t
  /\ clean_metadata_line t = Some t.
Proof.
  intros E. pose proof (clean_metadata_line_spec line) as H. rewrite E in H.
  destruct H as (tokens & _ & Hfree & pre & tok & post & -> & _ & Htrim & Hne).
  destruct Htrim as (l & r & -> & _ & _ & Ht).
  assert (Hc : comma_free t).
  { apply Forall_app in Hfree. destruct Hfree as [_ Hfree].
    inversion Hfree as [|? ? Htok _]; subst.
    apply comma_free_app in Htok. destruct Htok as [_ Htok].
    now apply comma_free_app in Htok. }
  repeat split; try assumption.
  unfold clean_metadata_line. rewrite (split_piece _ _ Hc). simpl.
  rewrite (strip_fixed _ Ht). destruct t; [congruence | reflexivity].
Qed.

Lemma clean_metadata_line_result_witness :
  clean_metadata_line " , , Q3 Report , " = Some "Q3 Report"
  /\ clean_metadata_line "Q3 Report" = Some "Q3 Report".
Proof.
  split; [reflexivity|].
  apply (clean_metadata_line_result " , , Q3 Report , " "Q3 Report" eq_refl).
Defined.

(** X2. Removing the trailing newlines of the lines read from the file
    (line 17) makes no difference to the metadata: trailing whitespace
    without a comma never changes what [clean_metadata_line] returns, so
    the three fields are the same for the raw lines and the stripped
    lines. *)
Theorem metadata_ignores_trailing_newlines (raw : list string) :
  metadata (read_lines raw) = metadata raw
  /\ (forall line w,
        blank w -> comma_free w ->
        clean_metadata_line (line ++ w) = clean_metadata_line line).
Proof.
  split; [|apply clean_app_blank].
  unfold metadata. now rewrite !metadata_field_read_lines.
Qed.

Lemma metadata_ignores_trailing_newlines_witness :
  blank (String "010" EmptyString)
  /\ clean_metadata_line ("Title,," ++ String "010" EmptyString)
     = clean_metadata_line "Title,,".
Proof.
  assert (Hb : blank (String "010" EmptyString))
    by (repeat constructor).
  split; [exact Hb|].
  apply (proj2 (metadata_ignores_trailing_newlines [])); [exact Hb|].
  cbv. intuition discriminate.
Defined.

(** ** Choosing the snapshot file *)

Section Discovery.

Lemma endswith_step (s suffix : string) :
  endswith s suffix
  = if String.eqb s suffix then true
    else match s with
         | EmptyString => false
         | String _ s' => endswith s' suffix
         end.
Proof. now destruct s. Qed.

Lemma endswith_iff (s suffix : string) :
  endswith s suffix = true <-> exists pre, s = (pre ++ suffix)%string.
Proof.
  induction s as [|c s IH]; rewrite endswith_step.
  - destruct (String.eqb_spec EmptyString suffix) as [<-|Hne].
    + split; [now exists EmptyString | reflexivity].
    + split; [discriminate|]. intros [pre E]. destruct pre; [|discriminate].
      simpl in E. congruence.
  - destruct (String.eqb_spec (String c s) suffix) as [<-|Hne].
    + split; [now exists EmptyString | reflexivity].
    + rewrite IH. split.
      * intros [pre ->]. now exists (String c pre).
      * intros [pre E]. destruct pre as [|d pre].
        -- simpl in E. congruence.
        -- simpl in E. injection E as _ E. now exists pre.
Qed.

Lemma is_snapshot_iff (name : string) :
  is_snapshot name = true <-> snapshot_name name.
Proof.
  unfold is_snapshot, snapshot_name.
  rewrite andb_true_iff, startswith_iff, endswith_iff. split.
  - intros [[rest ->] [pre E]]. exists pre. simpl in E. now rewrite E.
  - intros [middle ->]. split; [now eexists|]. now exists middle.
Qed.

Lemma mtime_lt (a b : DirEntry) :
  (st_mtime a ?= st_mtime b)%Q = Lt <-> (st_mtime a < st_mtime b)%Q.
Proof. symmetry. apply Qlt_alt. Qed.

Lemma mtime_not_lt (a b : DirEntry) :
  (st_mtime a ?= st_mtime b)%Q <> Lt -> (st_mtime b <= st_mtime a)%Q.
Proof.
  intros H. apply Qnot_lt_le. intros Hlt. now apply Qlt_alt in Hlt.
Qed.

(** The entry chosen is the first of the newest ones. *)
Lemma max_from_split (items : list DirEntry) :
  forall best,
  exists pre post,
    best :: items = pre ++ max_from best items :: post
    /\ Forall (fun e => (st_mtime e < st_mtime (max_from best items))%Q) pre
    /\ Forall (fun e => (st_mtime e <= st_mtime (max_from best items))%Q) post.
Proof.
  induction items as [|e rest IH]; intros best.
  - exists [], []. repeat split; constructor.
  - simpl. destruct (st_mtime best ?= st_mtime e)%Q eqn:C.
    + destruct (IH best) as (pre & post & E & Hpre & Hpost).
      assert (Hle : (st_mtime e <= st_mtime best)%Q)
        by (apply mtime_not_lt; congruence).
      destruct pre as [|b pre]; simpl in E; injection E as E1 E2.
      * subst post. exists [], (e :: rest). rewrite <- E1 in *.
        repeat split; [constructor|]. constructor; assumption.
      * subst b. inversion Hpre as [|? ? Hb Hpre']; subst.
        exists (best :: e :: pre), post.
        split; [simpl; do 2 f_equal; exact E2|]. split; [|assumption].
        constructor; [assumption|]. constructor; [|assumption].
        now apply Qle_lt_trans with (st_mtime best).
    + apply mtime_lt in C.
      destruct (IH e) as (pre & post & E & Hpre & Hpost).
      exists (best :: pre), post. split; [simpl; now rewrite <- E|].
      split; [|assumption]. constructor; [|assumption].
      destruct pre as [|b pre]; simpl in E; injection E as E1 E2.
      * now rewrite <- E1.
      * subst b. inversion Hpre; subst.
        now apply Qlt_trans with (st_mtime e).
    + destruct (IH best) as (pre & post & E & Hpre & Hpost).
      assert (Hle : (st_mtime e <= st_mtime best)%Q)
        by (apply mtime_not_lt; congruence).
      destruct pre as [|b pre]; simpl in E; injection E as E1 E2.
      * subst post. exists [], (e :: rest). rewrite <- E1 in *.
        repeat split; [constructor|]. constructor; assumption.
      * subst b. inversion Hpre as [|? ? Hb Hpre']; subst.
        exists (best :: e :: pre), post.
        split; [simpl; do 2 f_equal; exact E2|]. split; [|assumption].
        constructor; [assumption|]. constructor; [|assumption].
        now apply Qle_lt_trans with (st_mtime best).
Qed.

End Discovery.

(** X3. The file the script reads is a directory entry whose name has the
    form [P123_Screen_....csv]; no matching entry is newer, and among the
    matching entries of the same, newest modification time it is the one
    the directory lists first.  When no entry matches, [max] has nothing
    to choose from and the script stops there. *)
Theorem latest_snapshot_spec (dir : list DirEntry) :
  match latest_snapshot dir with
  | None => forall e, In e dir -> ~ snapshot_name (entry_name e)
  | Some chosen =>
      In chosen dir /\ snapshot_name (entry_name chosen)
      /\ exists earlier later,
           filter (fun e => is_snapshot (entry_name e)) dir
           = earlier ++ chosen :: later
           /\ Forall (fun e => (st_mtime e < st_mtime chosen)%Q) earlier
           /\ Forall (fun e => (st_mtime e <= st_mtime chosen)%Q) later
  end.
Proof.
  unfold latest_snapshot.
  destruct (filter (fun e => is_snapshot (entry_name e)) dir) as [|e rest] eqn:F.
  - intros e He Hs. apply is_snapshot_iff in Hs.
    assert (H : In e (filter (fun e => is_snapshot (entry_name e)) dir))
      by (apply filter_In; now split).
    rewrite F in H. destruct H.
  - destruct (max_from_split rest e) as (pre & post & E & Hpre & Hpost).
    assert (Hin : In (max_from e rest)
                    (filter (fun e => is_snapshot (entry_name e)) dir)).
    { rewrite F, E. apply in_elt. }
    apply filter_In in Hin. destruct Hin as [Hin Hs].
    split; [assumption|]. split; [now apply is_snapshot_iff|].
    exists pre, post. auto.
Qed.

(** ** More on dropping the placeholder columns *)

Section DropMore.

Lemma drop_unnamed_unfold (df : DataFrame) :
  drop_unnamed df
  = {| columns := filter keep (columns df);
       rows := map (Pd.select (map keep (columns df))) (rows df) |}.
Proof.
  unfold drop_unnamed, Pd.loc_columns. rewrite map_map.
  now rewrite select_map_filter.
Qed.

Lemma select_length_le {A : Type} (f : string -> bool) (cols : list string)
    (r : list A) :
  List.length (Pd.select (map f cols) r) <= List.length (filter f cols).
Proof.
  revert r. induction cols as [|c cols IH]; intros r; [simpl; lia|].
  destruct r as [|x r]; simpl; [lia|].
  destruct (f c); simpl; specialize (IH r); lia.
Qed.

Lemma select_length {A : Type} (f : string -> bool) (cols : list string)
    (r : list A) :
  List.length r = List.length cols ->
  List.length (Pd.select (map f cols) r) = List.length (filter f cols).
Proof.
  revert r. induction cols as [|c cols IH]; intros r H.
  - now destruct r.
  - destruct r as [|x r]; [discriminate|]. simpl in *.
    destruct (f c); simpl; rewrite IH; lia.
Qed.

Lemma select_all_kept {A : Type} (f : string -> bool) (cols : list string)
    (l : list A) :
  List.length l <= List.length (filter f cols) ->
  Pd.select (map f (filter f cols)) l = l.
Proof.
  revert l. induction cols as [|c cols IH]; intros l H.
  - destruct l; [reflexivity | simpl in H; lia].
  - simpl in *. destruct (f c) eqn:Hc; [|now apply IH].
    destruct l as [|x l]; [reflexivity|].
    simpl. rewrite Hc. f_equal. apply IH. simpl in H. lia.
Qed.

Lemma filter_idem {A : Type} (f : A -> bool) (l : list A) :
  filter f (filter f l) = filter f l.
Proof.
  induction l as [|x l IH]; [reflexivity|].
  simpl. destruct (f x) eqn:E; [simpl; rewrite E; now f_equal | assumption].
Qed.

Lemma drop_unnamed_idem (df : DataFrame) :
  drop_unnamed (drop_unnamed df) = drop_unnamed df.
Proof.
  rewrite (drop_unnamed_unfold (drop_unnamed df)).
  rewrite (drop_unnamed_unfold df). simpl.
  rewrite filter_idem, map_map. f_equal.
  apply map_ext. intros r. apply select_all_kept, select_length_le.
Qed.

Lemma drop_unnamed_rectangular (df : DataFrame) :
  rectangular df -> rectangular (drop_unnamed df).
Proof.
  unfold rectangular. rewrite drop_unnamed_unfold. simpl.
  rewrite Forall_map. apply Forall_impl. intros r. apply select_length.
Qed.

Lemma required_not_unnamed (name : string) :
  In name required_columns -> ~ starts_with_unnamed name.
Proof.
  intros H [rest E]. subst name.
  simpl in H. intuition discriminate.
Qed.

Lemma drop_unnamed_field (df : DataFrame) (name : string) (r : list cell) :
  ~ starts_with_unnamed name ->
  field (drop_unnamed df) name (Pd.select (map keep (columns df)) r)
  = field df name r.
Proof.
  intros Hn. unfold field.
  assert (Hk : keep name = true).
  { unfold keep. destruct (Py.startswith name "Unnamed") eqn:E; [|reflexivity].
    exfalso. apply Hn. now apply unnamed_iff. }
  rewrite drop_unnamed_unfold. simpl.
  destruct (Pd.index_of name (columns df)) as [i|] eqn:E.
  - destruct (index_of_select keep name Hk _ _ E) as (j & Ej & Hj).
    rewrite select_map_filter in Ej. now rewrite Ej.
  - replace (Pd.index_of name (filter keep (columns df))) with (@None nat);
      [reflexivity|].
    symmetry. apply index_of_none. apply index_of_none in E.
    intros H. apply filter_In in H. tauto.
Qed.

Lemma combine_map_l {A B C : Type} (f : A -> B) (l : list A) (l' : list C) :
  combine (map f l) l' = map (fun p => (f (fst p), snd p)) (combine l l').
Proof.
  revert l'. induction l as [|x l IH]; intros [|y l']; simpl; try reflexivity.
  now rewrite IH.
Qed.

Lemma drop_unnamed_records (df : DataFrame) (xs : list float64) :
  records (drop_unnamed df) xs = records df xs.
Proof.
  unfold records. rewrite (drop_unnamed_unfold df) at 2. simpl.
  rewrite combine_map_l, map_map. apply map_ext. intros [r x].
  unfold project. simpl.
  rewrite !drop_unnamed_field;
    [reflexivity | | |]; apply required_not_unnamed; simpl; tauto.
Qed.

Lemma nlargest_project (df : DataFrame) (xs : list float64) :
  map (project df) (Pd.nlargest K snd (combine (rows df) xs))
  = Pd.nlargest K MktCap (records df xs).
Proof.
  unfold Pd.nlargest, records.
  rewrite <- firstn_map, map_app. f_equal. f_equal.
  - rewrite (map_stable_sort (project df) _
               (fun a b => F.lt (MktCap b) (MktCap a))) by reflexivity.
    f_equal. now rewrite filter_map_comm.
  - now rewrite filter_map_comm.
Qed.

Lemma drop_unnamed_has_column (df : DataFrame) (name : string) :
  ~ starts_with_unnamed name ->
  existsb (String.eqb name) (columns (drop_unnamed df))
  = existsb (String.eqb name) (columns df).
Proof.
  intros Hn. apply eq_true_iff_eq. rewrite !existsb_eqb_In.
  rewrite drop_unnamed_columns, filter_In, <- unnamed_iff in *.
  destruct (Py.startswith name "Unnamed"); simpl; intuition congruence.
Qed.

Lemma drop_unnamed_top_stocks (df : DataFrame) (xs : list float64) :
  top_stocks (drop_unnamed df) xs = top_stocks df xs.
Proof.
  unfold top_stocks. rewrite !nlargest_project, drop_unnamed_records.
  cbn [filter].
  rewrite !drop_unnamed_has_column;
    [reflexivity | | | |]; apply required_not_unnamed; simpl; tauto.
Qed.

End DropMore.

(** X4. Dropping the placeholder columns a second time changes nothing,
    and a frame whose rows are as long as its header stays so. *)
Theorem drop_unnamed_idempotent (df : DataFrame) :
  drop_unnamed (drop_unnamed df) = drop_unnamed df
  /\ (rectangular df -> rectangular (drop_unnamed df)).
Proof.
  split; [apply drop_unnamed_idem | apply drop_unnamed_rectangular].
Qed.

Lemma drop_unnamed_idempotent_witness :
  rectangular five_df /\ rectangular (drop_unnamed five_df).
Proof.
  assert (H : rectangular five_df) by (repeat constructor).
  split; [exact H|].
  exact (proj2 (drop_unnamed_idempotent five_df) H).
Defined.

(** X5. The figures of the report do not depend on the placeholder
    columns: the coerced market-cap column, the summary statistics and the
    top-15 rows computed from the frame after the drop are those computed
    from the frame as it was read. *)
Theorem report_ignores_unnamed_columns (df : DataFrame) (xs : list float64) :
  mktcap_column (drop_unnamed df) = mktcap_column df
  /\ summary_statistics (drop_unnamed df) xs = summary_statistics df xs
  /\ top_stocks (drop_unnamed df) xs = top_stocks df xs.
Proof.
  assert (Hm : ~ starts_with_unnamed "MktCap")
    by (apply required_not_unnamed; simpl; tauto).
  assert (Hs : ~ starts_with_unnamed "SectorCode")
    by (apply required_not_unnamed; simpl; tauto).
  split; [|split].
  - unfold mktcap_column. now rewrite (drop_unnamed_keeps df _ Hm).
  - unfold summary_statistics, mktcap_sum, mktcap_floats.
    rewrite (drop_unnamed_keeps df _ Hs), (drop_unnamed_keeps df _ Hm).
    replace (Pd.len (drop_unnamed df)) with (Pd.len df); [reflexivity|].
    unfold Pd.len, drop_unnamed, Pd.loc_columns. simpl.
    now rewrite length_map.
  - apply drop_unnamed_top_stocks.
Qed.

(** ** Counts and percentages of the breakdown *)

Section BreakdownMore.








End BreakdownMore.


(** ** Ranking a ranking *)

Section Rerank.
Context {R : Type} (key : R -> float64).

Lemma larger_first_sorted (l : list R) :
  StronglySorted (fun a b => larger_first key b a = false)
    (stable_sort (larger_first key) l).
Proof.
  assert (Hirr : forall a, larger_first key a a = false)
    by (intros a; apply lt_irrefl).
  assert (Htr : forall a b c,
             larger_first key a b = true -> larger_first key b c = true ->
             larger_first key a c = true).
  { unfold larger_first. intros a b c H1 H2.
    now apply lt_trans with (key b). }
  assert (Hnt : forall a b c,
             larger_first key a c = true ->
             larger_first key a b = true \/ larger_first key b c = true).
  { unfold larger_first. intros a b c H.
    destruct (lt_neg_trans _ (key b) _ H); auto. }
  eapply StronglySorted_weaken;
    [|apply (stable_sort_lex (larger_first key) Hirr Htr Hnt
               (fun _ _ => True))].
  - intros a b _ _ H.
    apply (lex_not_after (larger_first key) Hirr Htr _ a b H).
  - induction l as [|x l IH]; constructor; [assumption|].
    now apply Forall_forall.
Qed.

(** Sorting what is in order already changes nothing. *)
Lemma stable_sort_in_order (l : list R) :
  StronglySorted (fun a b => larger_first key b a = false) l ->
  stable_sort (larger_first key) l = l.
Proof.
  induction 1 as [|x l Hs IH Hx]; [reflexivity|].
  simpl. rewrite IH. destruct l as [|y l]; [reflexivity|].
  simpl. inversion Hx as [|? ? Hy _]; subst. now rewrite Hy.
Qed.

Lemma Forall_firstn_of {A : Type} (P : A -> Prop) (n : nat) (l : list A) :
  Forall P l -> Forall P (firstn n l).
Proof.
  intros H. rewrite <- (firstn_skipn n l) in H. now apply Forall_app in H.
Qed.

Lemma StronglySorted_firstn {A : Type} (Q : A -> A -> Prop) (n : nat)
    (l : list A) :
  StronglySorted Q l -> StronglySorted Q (firstn n l).
Proof.
  revert n. induction l as [|x l IH]; intros n H.
  - now destruct n.
  - destruct n as [|n]; [constructor|]. inversion H; subst.
    simpl. constructor; [now apply IH | now apply Forall_firstn_of].
Qed.

Lemma filter_none {A : Type} (p : A -> bool) (l : list A) :
  Forall (fun x => p x = false) l -> filter p l = [].
Proof.
  induction 1 as [|x l Hx _ IH]; [reflexivity|]. simpl. now rewrite Hx.
Qed.

Lemma filter_every {A : Type} (p : A -> bool) (l : list A) :
  Forall (fun x => p x = true) l -> filter p l = l.
Proof.
  induction 1 as [|x l Hx _ IH]; [reflexivity|]. simpl. now rewrite Hx, IH.
Qed.

Lemma nlargest_again (m n : nat) (l : list R) :
  m <= n ->
  Pd.nlargest m key (Pd.nlargest n key l) = Pd.nlargest m key l.
Proof.
  intros Hmn. unfold Pd.nlargest at 2.
  change (fun a b : R => F.lt (key b) (key a)) with (larger_first key).
  set (S := stable_sort (larger_first key)
              (filter (fun r => F.notna (key r)) l)).
  set (N := filter (fun r => F.isna (key r)) l).
  assert (HS : Forall (fun r => F.notna (key r) = true) S).
  { apply (Permutation_Forall
             (Permutation_sym (stable_sort_perm (larger_first key) _))).
    apply Forall_forall. intros r Hr. now apply filter_In in Hr. }
  assert (HN : Forall (fun r => F.isna (key r) = true) N).
  { apply Forall_forall. intros r Hr. now apply filter_In in Hr. }
  assert (Hflip : forall r, F.notna (key r) = negb (F.isna (key r)))
    by reflexivity.
  rewrite firstn_app.
  set (A := firstn n S). set (B := firstn (n - List.length S) N).
  assert (HA : Forall (fun r => F.notna (key r) = true) A)
    by now apply Forall_firstn_of.
  assert (HB : Forall (fun r => F.isna (key r) = true) B)
    by now apply Forall_firstn_of.
  unfold Pd.nlargest.
  change (fun a b : R => F.lt (key b) (key a)) with (larger_first key).
  rewrite !filter_app.
  rewrite (filter_every _ A HA), (filter_every _ B HB).
  rewrite (filter_none (fun r => F.notna (key r)) B),
          (filter_none (fun r => F.isna (key r)) A).
  - rewrite app_nil_r. simpl.
    rewrite stable_sort_in_order
      by (apply StronglySorted_firstn, larger_first_sorted).
    unfold A, B. rewrite <- firstn_app, firstn_firstn.
    now rewrite Nat.min_l by assumption.
  - eapply Forall_impl; [|exact HA]. intros r Hr. simpl in Hr.
    rewrite Hflip in Hr. now apply negb_true_iff in Hr.
  - eapply Forall_impl; [|exact HB]. intros r Hr. simpl in Hr.
    rewrite Hflip. now rewrite Hr.
Qed.

End Rerank.

(** X10. Ranking a ranking: the [m] largest of the [n] largest rows are
    the [m] largest rows of the whole, for [m <= n]; in particular
    selecting the top rows a second time returns the same rows. *)
Theorem nlargest_of_nlargest
    (df : DataFrame) (xs : list float64) (m n : nat) :
  m <= n ->
  let rows_with_cap := combine (rows df) xs in
  Pd.nlargest m snd (Pd.nlargest n snd rows_with_cap)
  = Pd.nlargest m snd rows_with_cap
  /\ Pd.nlargest n snd (Pd.nlargest n snd rows_with_cap)
     = Pd.nlargest n snd rows_with_cap.
Proof.
  intros Hmn rows_with_cap.
  split; apply nlargest_again; [assumption | apply Nat.le_refl].
Qed.

Lemma nlargest_of_nlargest_witness :
  3 <= K
  /\ Pd.nlargest 3 snd
       (Pd.nlargest K snd
          (combine (rows five_df) [Fin 100; NaN; Fin 300; Fin 200; Fin 50]))
     = Pd.nlargest 3 snd
         (combine (rows five_df) [Fin 100; NaN; Fin 300; Fin 200; Fin 50]).
Proof.
  assert (H : 3 <= K) by (unfold K; lia).
  split; [exact H|].
  apply (nlargest_of_nlargest five_df
           [Fin 100; NaN; Fin 300; Fin 200; Fin 50] 3 K H).
Defined.

(** ** The saved presentation *)

Section Saved.

Lemma slice_to_length (n : nat) (s : string) :
  String.length (Py.slice_to n s) <= n.
Proof.
  unfold Py.slice_to. revert s.
  induction n as [|n IH]; intros s; destruct s; simpl; try lia.
  specialize (IH s). lia.
Qed.

Lemma table_row_shape (r : Ranked) :
  List.length (table_row r) = 4
  /\ String.length (nth 1 (table_row r) EmptyString) <= 40.
Proof. split; [reflexivity | apply slice_to_length]. Qed.

Lemma top_stocks_length (df : DataFrame) (xs : list float64)
    (top : list Ranked) :
  top_stocks df xs = inr top -> List.length top <= K.
Proof.
  intros H. rewrite (top_stocks_value _ _ _ H). apply firstn_le_length.
Qed.

Lemma saved_run (lines : list string) (csv : result DataFrame)
    (prs : Presentation) :
  saved lines csv = Some prs -> run lines csv = (prs, inr tt).
Proof.
  unfold saved. destruct (run lines csv) as [p [e|[]]]; [discriminate|].
  now intros [= ->].
Qed.

End Saved.

(** X11. A presentation that gets saved always has the four slides in
    their order (title, summary, breakdown, table); its table has the
    header row and at most 15 further rows, every row has four cells, and
    no cell of the name column is longer than 40 characters. *)
Theorem saved_presentation_shape
    (lines : list string) (df0 : DataFrame) (prs : Presentation) :
  saved lines (inr df0) = Some prs ->
  exists st sectors top,
    prs = [title_slide (metadata lines); summary_slide st;
           breakdown_slide sectors (Pd.len (drop_unnamed df0));
           [table_heading; Table (table_cells top)]]
    /\ List.length (table_cells top) = S (List.length top)
    /\ List.length top <= 15
    /\ Forall (fun row => List.length row = 4) (table_cells top)
    /\ Forall (fun row => String.length (nth 1 row EmptyString) <= 40)
         (table_cells top).
Proof.
  intros Hsaved. apply saved_run in Hsaved.
  destruct (mktcap_column (drop_unnamed df0)) as [e|xs] eqn:Hx.
  { rewrite (run_no_mktcap _ _ _ Hx) in Hsaved. discriminate. }
  destruct (title (metadata lines)) as [t|] eqn:Hl.
  2:{ rewrite (run_no_title _ _ _ Hx Hl) in Hsaved. discriminate. }
  destruct (Pd.getitem (drop_unnamed df0) "SectorCode") as [e|sectors] eqn:Hs.
  { rewrite (run_no_sector _ _ _ _ _ Hx Hl Hs) in Hsaved. discriminate. }
  destruct (top_stocks (drop_unnamed df0) xs) as [e|top] eqn:Ht.
  { destruct (run_no_columns lines _ _ _ _ _ Hx Hl Hs Ht) as (st & _ & Hrun).
    rewrite Hrun in Hsaved. discriminate. }
  destruct (run_completes lines _ _ _ _ _ Hx Hl Hs Ht) as (st & _ & Hrun).
  rewrite Hrun in Hsaved. injection Hsaved as <-.
  exists st, sectors, top. split; [reflexivity|].
  split; [unfold table_cells; simpl; now rewrite length_map|].
  split; [exact (top_stocks_length _ _ _ Ht)|].
  unfold table_cells. split; constructor;
    try reflexivity; try (simpl; lia);
    rewrite Forall_map; apply Forall_forall; intros r _;
    apply table_row_shape.
Qed.

Lemma saved_presentation_shape_witness :
  exists prs,
    saved preamble (inr five_df) = Some prs
    /\ exists st sectors top,
         prs = [title_slide (metadata preamble); summary_slide st;
                breakdown_slide sectors (Pd.len (drop_unnamed five_df));
                [table_heading; Table (table_cells top)]]
         /\ List.length top <= 15.
Proof.
  eexists. split; [vm_compute; reflexivity|].
  destruct (saved_presentation_shape preamble five_df _ eq_refl)
    as (st & sectors & top & E & _ & Hlen & _).
  exists st, sectors, top. split; [exact E | exact Hlen].
Defined.
